(** * Timestamp authority: verification, issuance handler and certificate maker

    A shallow embedding of the Go sources

    - [pkg/verification] (package [verification]): [VerifyOpts], the policy
      checks and [VerifyTimestampResponse], [CreateTimestampResponse];
    - [pkg/api/timestamp.go] (package [api]): [TimestampResponseHandler];
    - [cmd/certificate_maker/certificate_maker.go] (package [main]):
      [runCreate].

    Calls into other packages (digitorus/timestamp, digitorus/pkcs7, crypto,
    io, certmaker, ...) are not given a body here: a Go function is a tree of
    such calls ([prog]), every call is answered by the environment (a call
    is taken to return, not to panic), and the properties below hold for
    every answer the environment can give. *)

From Stdlib Require Import ZArith String Ascii.
From Stdlib.Strings Require Import Byte.
From stdpp Require Import base decidable option list strings pretty gmap.

Local Open Scope string_scope.
Local Open Scope list_scope.
Local Open Scope Z_scope.

(** ** Go values *)

Module go.

(** [[]byte] *)
Definition bytes := list byte.

#[export] Instance byte_eq_dec : EqDecision byte := Byte.byte_eq_dec.

(** [bytes.Equal] *)
Definition bytes_Equal (a b : bytes) : bool := bool_decide (a = b).

(** The [error] interface.  A nil error is [None] of [option error]. *)
Inductive error : Type :=
| errorString (s : string)
  (* errors.New(s), and fmt.Errorf whose format has no %w *)
| wrapError (msg : string) (err : error)
  (* fmt.Errorf with one %w operand [err]; [msg] is the formatted text *)
| ParseError (s : string)
  (* timestamp.ParseError, a string type *)
| foreignError (type s : string).
  (* any other concrete error type a library hands back *)

#[export] Instance error_eq_dec : EqDecision error.
Proof. solve_decision. Defined.

(** The [Error()] method. *)
Definition Error (e : error) : string :=
  match e with
  | errorString s => s
  | wrapError msg _ => msg
  | ParseError s => s
  | foreignError _ s => s
  end.

(** [errors.New] *)
Definition errors_New (s : string) : error := errorString s.

(** [fmt.Errorf(prefix + "%w", err)]: the text is the prefix followed by the
    text of [err], and [err] stays reachable through [Unwrap]. *)
Definition Errorf_w (prefix : string) (err : error) : error :=
  wrapError (prefix +:+ Error err) err.

(** [errors.Unwrap] *)
Definition Unwrap (err : error) : option error :=
  match err with
  | wrapError _ inner => Some inner
  | errorString _ | ParseError _ | foreignError _ _ => None
  end.

(** [errors.As(err, &pe)] with [pe] of type [timestamp.ParseError]: walks
    the [Unwrap] chain looking for a value of that type. *)
Fixpoint As_ParseError (err : error) : bool :=
  match err with
  | ParseError _ => true
  | wrapError _ inner => As_ParseError inner
  | errorString _ | foreignError _ _ => false
  end.

(** A slice: nil, or a (possibly empty) sequence. *)
Definition slice (A : Type) := option (list A).

Definition elems {A} (s : slice A) : list A := default [] s.

(** [len(s)] *)
Definition len {A} (s : slice A) : nat := length (elems s).

(** [asn1.ObjectIdentifier], a [[]int] *)
Definition ObjectIdentifier := slice Z.

(** [big.Int.Cmp] on two non-nil operands. *)
Definition Cmp (x y : Z) : Z :=
  match x ?= y with
  | Lt => -1
  | Eq => 0
  | Gt => 1
  end.

(** ** Programs that call out

    [prog E R] is a Go function body returning [R]: it returns, panics, or
    calls a function [e : E X] of another package and goes on with the
    value of type [X] that call hands back. *)
Inductive prog (E : Type -> Type) (R : Type) : Type :=
| Ret (r : R)
| Panic (msg : string)
| Call {X : Type} (e : E X) (k : X -> prog E R).
Arguments Ret {E R} r.
Arguments Panic {E R} msg.
Arguments Call {E R X} e k.

Fixpoint bind {E R S} (p : prog E R) (f : R -> prog E S) : prog E S :=
  match p with
  | Ret r => f r
  | Panic msg => Panic msg
  | Call e k => Call e (fun x => bind (k x) f)
  end.

Definition call {E X} (e : E X) : prog E X := Call e Ret.

(** [s[i]]: the element, or the run-time panic of an index out of range. *)
Definition index {E A} (s : list A) (i : nat) : prog E A :=
  match s !! i with
  | Some a => Ret a
  | None => Panic "runtime error: index out of range"
  end.

(** The panic of reading through a nil pointer. *)
Definition nil_dereference {E A} : prog E A :=
  Panic "runtime error: invalid memory address or nil pointer dereference".

#[export] Instance prog_ret {E} : MRet (prog E) := fun _ r => Ret r.
#[export] Instance prog_bind {E} : MBind (prog E) := fun _ _ f p => bind p f.

(** One answered call. *)
Inductive event (E : Type -> Type) : Type :=
| Ev {X : Type} (e : E X) (x : X).
Arguments Ev {E X} e x.

(** How a run ends. *)
Inductive final (R : Type) : Type :=
| Returned (r : R)
| Panicked (msg : string).
Arguments Returned {R} r.
Arguments Panicked {R} msg.

(** [runs p tr f]: some environment answers the calls of [p] as listed in
    [tr], in that order, and [p] ends in [f]. *)
Fixpoint runs {E R} (p : prog E R) (tr : list (event E)) (f : final R) : Prop :=
  match p with
  | Ret r => tr = [] /\ f = Returned r
  | Panic msg => tr = [] /\ f = Panicked msg
  | Call e k => exists x tr', tr = Ev e x :: tr' /\ runs (k x) tr' f
  end.

(** The run of [p] against one environment [env]. *)
Fixpoint run {E R} (env : forall X, E X -> X) (p : prog E R)
  : list (event E) * final R :=
  match p with
  | Ret r => ([], Returned r)
  | Panic msg => ([], Panicked msg)
  | Call e k =>
      let x := env _ e in
      let '(tr, f) := run env (k x) in
      (Ev e x :: tr, f)
  end.

End go.
Export go.

Notation "'check!' c ; rest" :=
  (match c with Some err => Ret (Some err) | None => rest end)
  (at level 20, c at level 100, rest at level 200, only parsing).

(** ** crypto/x509 *)

Module x509.

(** [x509.ExtKeyUsage] and its constants, in declaration order. *)
Inductive ExtKeyUsageT : Set :=
| ExtKeyUsageAny
| ExtKeyUsageServerAuth
| ExtKeyUsageClientAuth
| ExtKeyUsageCodeSigning
| ExtKeyUsageEmailProtection
| ExtKeyUsageIPSECEndSystem
| ExtKeyUsageIPSECTunnel
| ExtKeyUsageIPSECUser
| ExtKeyUsageTimeStamping
| ExtKeyUsageOCSPSigning
| ExtKeyUsageMicrosoftServerGatedCrypto
| ExtKeyUsageNetscapeServerGatedCrypto
| ExtKeyUsageMicrosoftCommercialCodeSigning
| ExtKeyUsageMicrosoftKernelCodeSigning.

#[global] Instance ExtKeyUsageT_eq_dec : EqDecision ExtKeyUsageT.
Proof. solve_decision. Defined.

(** The fields of [x509.Certificate] the verifier reads.  [Subject] is the
    [pkix.Name] through its [String()] rendering, its only use. *)
Record Certificate : Type := {
  Raw : bytes;
  RawIssuer : bytes;
  SerialNumber : Z;
  Subject : string;
  ExtKeyUsage : list ExtKeyUsageT;
}.

#[global] Instance Certificate_eq_dec : EqDecision Certificate.
Proof. solve_decision. Defined.

(** [Certificate.Equal] on two non-nil certificates. *)
Definition Equal (c other : Certificate) : bool :=
  bytes_Equal (Raw c) (Raw other).

(** [x509.CertPool] *)
Definition CertPool := list Certificate.

End x509.

(** ** github.com/digitorus/timestamp and github.com/digitorus/pkcs7: types *)

Module timestamp.

(** [crypto.Hash], an unsigned integer naming a hash function. *)
Definition crypto_Hash := N.

(** [pkix.Extension] *)
Record Extension : Type := {
  Id : ObjectIdentifier;
  Critical : bool;
  Value : bytes;
}.

(** [timestamp.Request] *)
Module Request.
Record t : Type := {
  HashAlgorithm : crypto_Hash;
  HashedMessage : bytes;
  Certificates : bool;
  TSAPolicyOID : ObjectIdentifier;
  Nonce : option Z;
  Extensions : slice Extension;
}.
End Request.

(** [timestamp.Timestamp]: the fields this repository sets or reads.
    [Time] is in nanoseconds since the epoch, [Accuracy] a
    [time.Duration] in nanoseconds, [Nonce] a [*big.Int]. *)
Module Timestamp.
Record t : Type := {
  RawToken : bytes;
  HashAlgorithm : crypto_Hash;
  HashedMessage : bytes;
  Time : Z;
  Accuracy : Z;
  Policy : ObjectIdentifier;
  Ordering : bool;
  Nonce : option Z;
  Qualified : bool;
  Certificates : list x509.Certificate;
  AddTSACertificate : bool;
  ExtraExtensions : slice Extension;
}.

(** [timestamp.Timestamp{}] *)
Definition zero : t := {|
  RawToken := []; HashAlgorithm := 0%N; HashedMessage := [];
  Time := 0; Accuracy := 0; Policy := None; Ordering := false;
  Nonce := None; Qualified := false; Certificates := [];
  AddTSACertificate := false; ExtraExtensions := None;
|}.
End Timestamp.

(** [pkcs7.PKCS7], the parsed SignedData envelope. *)
Record PKCS7 : Type := {
  Content : bytes;
  p7Certificates : list x509.Certificate;
  Signers : list bytes;
}.

(** [hash.Hash]: the function it computes and what was written to it. *)
Record hash_Hash : Type := {
  function : crypto_Hash;
  written : bytes;
}.

(** [h.New()], for a hash function linked into the binary. *)
Definition New (h : crypto_Hash) : hash_Hash :=
  {| function := h; written := [] |}.

(** An [io.Reader] by what reading it to its end gives: the bytes, and the
    error that stopped the reading (nil at end of file). *)
Record Reader : Type := {
  content : bytes;
  failure : option error;
}.

(** [io.Copy(h, r)] into a hash, whose [Write] never fails. *)
Definition io_Copy (h : hash_Hash) (r : Reader) : hash_Hash * option error :=
  ({| function := function h; written := written h ++ content r |}, failure r).

End timestamp.
Import timestamp.

(** ** Package verification *)

Module verification.

Record VerifyOpts : Type := {
  Oid : ObjectIdentifier;
  TsaCertificate : option x509.Certificate;
  Intermediates : slice x509.Certificate;
  Roots : slice x509.Certificate;
  Nonce : option Z;
  Subject : string;
  HashAlgorithm : option hash_Hash;
  HashedMessage : bytes;
}.

(** The calls the package makes into its libraries, each with the type of
    what it hands back; a Go pair (value, error) is a sum. *)
Inductive libE : Type -> Type :=
| timestamp_ParseResponse (tsrBytes : bytes) : libE (Timestamp.t + error)
| pkcs7_Parse (data : bytes) : libE (PKCS7 + error)
| VerifyWithChain (p7 : PKCS7) (truststore : x509.CertPool) : libE (option error)
| Sum (h : hash_Hash) : libE bytes.

Section checks.
Context {E : Type -> Type}.

(* Verify the TSR's certificate identifier matches a provided TSA certificate *)
Definition verifyESSCertID (tsaCert : x509.Certificate) (opts : VerifyOpts)
  : option error :=
  match TsaCertificate opts with
  | None => None
  | Some optsCert =>
      let errMessage := "" in
      let errMessage :=
        if negb (bytes_Equal (x509.RawIssuer optsCert) (x509.RawIssuer tsaCert))
        then errMessage +:+ "TSR cert issuer does not match provided TSA cert issuer"
        else errMessage in
      let errMessage :=
        if bool_decide (Cmp (x509.SerialNumber optsCert) (x509.SerialNumber tsaCert) ≠ 0)
        then
          if bool_decide (errMessage ≠ "")
          then errMessage +:+ ", TSR cert issuer does not match provided TSA cert issuer"
          else "TSR cert issuer does not match provided TSA cert issuer"
        else errMessage in
      if bool_decide (errMessage ≠ "")
      then Some (errors_New errMessage)
      else None
  end.

(* Verify the leaf certificate's subject and/or subject alternative name
   matches a provided subject *)
Definition verifyLeafCertSubject (subject : string) (opts : VerifyOpts)
  : option error :=
  match TsaCertificate opts with
  | None => None
  | Some optsCert =>
      let leafCertSubject := x509.Subject optsCert in
      if bool_decide (leafCertSubject ≠ subject)
      then Some (errorString ("Leaf cert subject " +:+ leafCertSubject +:+
                              " does not match provided subject " +:+ subject))
      else None
  end.

(* If embedded in the TSR, verify the TSR's leaf certificate matches a
   provided TSA certificate *)
Definition verifyEmbeddedLeafCert (tsaCert : x509.Certificate) (opts : VerifyOpts)
  : option error :=
  match TsaCertificate opts with
  | Some optsCert =>
      if negb (x509.Equal optsCert tsaCert)
      then Some (errorString
             "certificate embedded in the TSR does not match the provided TSA certificate")
      else None
  | None => None
  end.

(** Each [fmt.Errorf("%s: %w", errMsg, err)] below is an expression
    statement of the source: the error is built and bound to nothing. *)
Definition verifyLeafCert (cert : x509.Certificate) (opts : VerifyOpts)
  : option error :=
  let errMsg := "failed to verify leaf cert" in
  let err := verifyESSCertID cert opts in
  let _ := match err with
           | Some err => Some (Errorf_w (errMsg +:+ ": ") err)
           | None => None
           end in
  let err := verifyLeafCertSubject (x509.Subject cert) opts in
  let _ := match err with
           | Some err => Some (Errorf_w (errMsg +:+ ": ") err)
           | None => None
           end in
  let err := verifyEmbeddedLeafCert cert opts in
  let _ := match err with
           | Some err => Some (Errorf_w (errMsg +:+ ": ") err)
           | None => None
           end in
  None.

Definition verifyExtendedKeyUsage (cert : x509.Certificate)
  : prog E (option error) :=
  let certEKULen := length (x509.ExtKeyUsage cert) in
  if bool_decide (certEKULen ≠ 1%nat)
  then Ret (Some (errorString ("cert has " +:+ pretty certEKULen +:+
                               " extended key usages, expected only one")))
  else
    eku0 ← index (x509.ExtKeyUsage cert) 0;
    if bool_decide (eku0 ≠ x509.ExtKeyUsageTimeStamping)
    then Ret (Some (errorString "leaf cert EKU is not set to TimeStamping as required"))
    else Ret None.

(** The [for _, cert := range opts.Intermediates] loop. *)
Fixpoint verifyIntermediatesEKU (certs : list x509.Certificate)
  : prog E (option error) :=
  match certs with
  | [] => Ret None
  | cert :: certs =>
      err ← verifyExtendedKeyUsage cert;
      match err with
      | Some err =>
          Ret (Some (Errorf_w "failed to verify EKU on intermediate cert: " err))
      | None => verifyIntermediatesEKU certs
      end
  end.

(* Verify the TSA certificate and the intermediates (called "EKU chaining")
   all have the extended key usage set to only time stamping usage *)
Definition verifyLeafAndIntermediatesEKU (opts : VerifyOpts)
  : prog E (option error) :=
  match TsaCertificate opts, Intermediates opts with
  | None, _ | _, None => Ret None
  | Some leafCert, Some intermediates =>
      err ← verifyExtendedKeyUsage leafCert;
      match err with
      | Some err => Ret (Some (Errorf_w "failed to verify EKU on leaf cert: " err))
      | None => verifyIntermediatesEKU intermediates
      end
  end.

(** The [for i, v := range oid] loop, from index [i] on. *)
Fixpoint verifyOID_range (i : nat) (oid responseOid : list Z)
  : prog E (option error) :=
  match oid with
  | [] => Ret None
  | v :: oid =>
      r ← index responseOid i;
      if bool_decide (v ≠ r)
      then Ret (Some (errorString "OID content does not match"))
      else verifyOID_range (S i) oid responseOid
  end.

(* Verify the OID of the TSR matches an expected OID *)
Definition verifyOID (oid : ObjectIdentifier) (opts : VerifyOpts)
  : prog E (option error) :=
  match Oid opts with
  | None => Ret None
  | Some responseOid =>
      if bool_decide (len oid ≠ length responseOid)
      then Ret (Some (errorString "OID lengths do not match"))
      else verifyOID_range 0 (elems oid) responseOid
  end.

(* Verify the nonce - Mostly important for when the response is first returned *)
Definition verifyNonce (requestNonce : option Z) (opts : VerifyOpts)
  : prog E (option error) :=
  match Nonce opts with
  | None => Ret None
  | Some optsNonce =>
      match requestNonce with
      | None => nil_dereference
      | Some requestNonce =>
          if bool_decide (Cmp optsNonce requestNonce ≠ 0)
          then Ret (Some (errorString ("incoming nonce " +:+ pretty requestNonce +:+
                                       " does not match TSR nonce " +:+ pretty optsNonce)))
          else Ret None
      end
  end.

End checks.

Definition verifyTSRWithChain (ts : Timestamp.t) (certPool : x509.CertPool)
  : prog libE (option error) :=
  r ← call (pkcs7_Parse (Timestamp.RawToken ts));
  match r with
  | inr err => Ret (Some (Errorf_w "error parsing hashed message: " err))
  | inl p7Message =>
      err ← call (VerifyWithChain p7Message certPool);
      match err with
      | Some err => Ret (Some (Errorf_w "error while verifying with chain: " err))
      | None => Ret None
      end
  end.

(* Verify that the TSR's hashed message matches the digest of the artifact
   to be timestamped *)
Definition verifyHashedMessages (hashAlg : hash_Hash) (hashedMessage : bytes)
    (artifactReader : Reader) : prog libE (option error) :=
  let h := hashAlg in
  let '(h, err) := io_Copy h artifactReader in
  match err with
  | Some err => Ret (Some (Errorf_w "failed to create hash " err))
  | None =>
      localHashedMsg ← call (Sum h);
      if negb (bytes_Equal localHashedMsg hashedMessage)
      then Ret (Some (errorString "hashed messages don't match"))
      else Ret None
  end.

(** The error both decoders make of a failed [timestamp.ParseResponse]. *)
Definition parseResponseError (err : error) : error :=
  if As_ParseError err
  then Errorf_w "timestamp response is not valid: " err
  else Errorf_w "error parsing response into Timestamp: " err.

(* VerifyTimestampResponse the timestamp response using a timestamp
   certificate chain. *)
Definition VerifyTimestampResponse (tsrBytes : bytes) (artifact : Reader)
    (certPool : x509.CertPool) (opts : VerifyOpts) : prog libE (option error) :=
  r ← call (timestamp_ParseResponse tsrBytes);
  match r with
  | inr err => Ret (Some (parseResponseError err))
  | inl ts =>
      err ← verifyTSRWithChain ts certPool;
      check! err;
      err ← verifyNonce (Timestamp.Nonce ts) opts;
      check! err;
      err ← verifyOID (Timestamp.Policy ts) opts;
      check! err;
      err ← verifyLeafAndIntermediatesEKU opts;
      check! err;
      cert0 ← index (Timestamp.Certificates ts) 0;
      check! verifyLeafCert cert0 opts;
      verifyHashedMessages (New (Timestamp.HashAlgorithm ts))
                           (Timestamp.HashedMessage ts) artifact
  end.

Definition CreateTimestampResponse (tsrBytes : bytes)
  : prog libE (Timestamp.t * option error) :=
  r ← call (timestamp_ParseResponse tsrBytes);
  match r with
  | inr err => Ret (Timestamp.zero, Some (parseResponseError err))
  | inl ts => Ret (ts, None)
  end.

End verification.

(** ** Package api *)

Module api.

(** [asn1.ObjectIdentifier.String]: the decimal components joined by dots,
    written as the library's loop [for i, v := range oi]. *)
Fixpoint String_range (i : nat) (oi : list Z) (s : string) : string :=
  match oi with
  | [] => s
  | v :: oi =>
      let s := if bool_decide (0 < i)%nat then s +:+ "." else s in
      String_range (S i) oi (s +:+ pretty v)
  end.

Definition ObjectIdentifier_String (oi : ObjectIdentifier) : string :=
  String_range 0 (elems oi) "".

(** [crypto.Signer], by the name of the key it signs with. *)
Definition crypto_Signer := string.

(** The package-level [api] value: chain and signer loaded at start-up. *)
Record API : Type := {
  certChain : list x509.Certificate;
  tsaSigner : crypto_Signer;
  certChainPem : string;
}.

(** [ts.GetTimestampResponseParams]: the body, and the Content-Type header
    of [HTTPRequest] as [Header.Get] returns it. *)
Record GetTimestampResponseParams : Type := {
  Request : Reader;
  Header_Get_Content_Type : string;
}.

(** [io.ReadAll] *)
Definition io_ReadAll (r : Reader) : bytes * option error :=
  (content r, failure r).

(** The two message constants of the package, by name. *)
Inductive message : Set :=
| failedToGenerateTimestampResponse
| weakHashAlgorithmTimestampRequest.

(** The two serialisers the handler chooses between. *)
Inductive marshaller : Set :=
| json_Marshal
| asn1_Marshal.

Definition StatusBadRequest : Z := 400.
Definition StatusInternalServerError : Z := 500.

(** [middleware.Responder]: what [handleTimestampAPIError] was asked to
    report, or [NewGetTimestampResponseCreated().WithPayload]. *)
Inductive Responder : Type :=
| handleTimestampAPIError (params : GetTimestampResponseParams) (code : Z)
    (err : error) (msg : message)
| GetTimestampResponseCreated (payload : bytes).

(** The calls of the handler into other packages.  A [*timestamp.Request]
    handed to [verification.VerifyRequest] may be nil. *)
Inductive apiE : Type -> Type :=
| timestamp_ParseJSONRequest (b : bytes) : apiE (Request.t + error)
| timestamp_ParseASN1Request (b : bytes) : apiE (Request.t + error)
| verification_VerifyRequest (req : option Request.t) : apiE (option error)
| time_Now : apiE Z
| CreateResponse (tsStruct : Timestamp.t) (cert : x509.Certificate)
    (signer : crypto_Signer) (marshalFunc : marshaller) : apiE (bytes + error).

(** Lines 39-55 of the handler: the request and content type it decodes,
    or the response it returns at once. *)
Definition decodeRequest (params : GetTimestampResponseParams)
    (val : string) (requestBytes : bytes)
  : prog apiE (Responder + option Request.t * string) :=
  let req : option Request.t := None in
  let contentType := "" in
  if bool_decide (val = "application/json") then
    r ← call (timestamp_ParseJSONRequest requestBytes);
    match r with
    | inr err =>
        Ret (inl (handleTimestampAPIError params StatusBadRequest err
                    failedToGenerateTimestampResponse))
    | inl jsonReq => Ret (inr (Some jsonReq, val))
    end
  else if bool_decide (val = "application/timestamp-query") then
    r ← call (timestamp_ParseASN1Request requestBytes);
    match r with
    | inr err =>
        Ret (inl (handleTimestampAPIError params StatusBadRequest err
                    failedToGenerateTimestampResponse))
    | inl asn1Req => Ret (inr (Some asn1Req, val))
    end
  else Ret (inr (req, contentType)).

(** Lines 61-64: the policy OID the response is given. *)
Definition policyID (req : Request.t) : ObjectIdentifier :=
  let policyID := Request.TSAPolicyOID req in
  if bool_decide (ObjectIdentifier_String policyID = "")
  then Some [1; 3; 6; 1; 4; 1; 57264; 2]
  else policyID.

(** Lines 82-87. *)
Definition marshalFunc (contentType : string) : marshaller :=
  if bool_decide (contentType = "application/json")
  then json_Marshal
  else asn1_Marshal.

(** Lines 57-93: the handler from request validation on. *)
Definition respond (api : API) (params : GetTimestampResponseParams)
    (req : option Request.t) (contentType : string) : prog apiE Responder :=
  err ← call (verification_VerifyRequest req);
  match err with
  | Some err =>
      Ret (handleTimestampAPIError params StatusBadRequest err
             weakHashAlgorithmTimestampRequest)
  | None =>
      match req with
      | None => nil_dereference
      | Some req =>
          let policyID := policyID req in
          let duration := 1000000000 in
          now ← call time_Now;
          let tsStruct := {|
            Timestamp.RawToken := [];
            Timestamp.HashAlgorithm := Request.HashAlgorithm req;
            Timestamp.HashedMessage := Request.HashedMessage req;
            Timestamp.Time := now;
            Timestamp.Nonce := Request.Nonce req;
            Timestamp.Policy := policyID;
            Timestamp.Ordering := false;
            Timestamp.Accuracy := duration;
            Timestamp.Qualified := false;
            Timestamp.Certificates := [];
            Timestamp.AddTSACertificate := Request.Certificates req;
            Timestamp.ExtraExtensions := Request.Extensions req;
          |} in
          let marshalFunc := marshalFunc contentType in
          cert0 ← index (certChain api) 0;
          resp ← call (CreateResponse tsStruct cert0 (tsaSigner api) marshalFunc);
          match resp with
          | inr err =>
              Ret (handleTimestampAPIError params StatusInternalServerError err
                     failedToGenerateTimestampResponse)
          | inl resp => Ret (GetTimestampResponseCreated resp)
          end
      end
  end.

Definition TimestampResponseHandler (api : API)
    (params : GetTimestampResponseParams) : prog apiE Responder :=
  let '(requestBytes, err) := io_ReadAll (Request params) in
  match err with
  | Some err =>
      Ret (handleTimestampAPIError params StatusBadRequest err
             failedToGenerateTimestampResponse)
  | None =>
      let val := Header_Get_Content_Type params in
      decoded ← decodeRequest params val requestBytes;
      match decoded with
      | inl responder => Ret responder
      | inr (req, contentType) => respond api params req contentType
      end
  end.

End api.

(** ** Package main of cmd/certificate_maker *)

Module certificate_maker.

(** The viper store after flags and environment are bound. *)
Definition viper_GetString (viper : gmap string string) (key : string) : string :=
  default "" (viper !! key).

(** [certmaker.KMSConfig] *)
Record KMSConfig : Type := {
  Type_ : string;
  RootKeyID : string;
  IntermediateKeyID : string;
  LeafKeyID : string;
  Options : gmap string string;
}.

Definition with_Options (config : KMSConfig) (options : gmap string string)
  : KMSConfig :=
  {| Type_ := Type_ config; RootKeyID := RootKeyID config;
     IntermediateKeyID := IntermediateKeyID config;
     LeafKeyID := LeafKeyID config; Options := options |}.

(** [signature.SignerVerifier], the handle [certmaker.InitKMS] returns. *)
Record SignerVerifier : Type := { keyRef : string }.

(** The calls [runCreate] makes: the file system and package certmaker.
    [certmaker.CreateCertificates] is the one call that issues and signs
    certificates. *)
Inductive makerE : Type -> Type :=
| os_Stat (name : string) : makerE (option error)
| os_IsNotExist (err : error) : makerE bool
| certmaker_InitKMS (config : KMSConfig) : makerE (SignerVerifier + error)
| certmaker_ValidateTemplatePath (path : string) : makerE (option error)
| certmaker_CreateCertificates (km : SignerVerifier) (config : KMSConfig)
    (rootTemplatePath leafTemplatePath rootCertPath leafCertPath
     intermediateKeyID intermediateTemplatePath intermediateCertPath : string)
  : makerE (option error).

(** The [switch config.Type] of [runCreate]: the configuration with its
    provider options filled in, or the error returned from inside it. *)
Definition kmsOptions (viper : gmap string string) (config : KMSConfig)
  : prog makerE (error + KMSConfig) :=
  if bool_decide (Type_ config = "awskms") then
    let awsRegion := viper_GetString viper "aws-region" in
    if bool_decide (awsRegion ≠ "")
    then Ret (inr (with_Options config (<["aws-region" := awsRegion]> (Options config))))
    else Ret (inr config)
  else if bool_decide (Type_ config = "gcpkms") then
    let gcpCredsFile := viper_GetString viper "gcp-credentials-file" in
    if bool_decide (gcpCredsFile ≠ "") then
      (* Check if credentials file exists before trying to use it *)
      err ← call (os_Stat gcpCredsFile);
      match err with
      | Some err =>
          notExist ← call (os_IsNotExist err);
          if notExist : bool
          then Ret (inl (errorString
                 ("failed to initialize KMS: credentials file not found: " +:+ gcpCredsFile)))
          else Ret (inl (Errorf_w
                 "failed to initialize KMS: error accessing credentials file: " err))
      | None =>
          Ret (inr (with_Options config
                      (<["gcp-credentials-file" := gcpCredsFile]> (Options config))))
      end
    else Ret (inr config)
  else if bool_decide (Type_ config = "azurekms") then
    let azureTenantID := viper_GetString viper "azure-tenant-id" in
    if bool_decide (azureTenantID ≠ "")
    then Ret (inr (with_Options config
                     (<["azure-tenant-id" := azureTenantID]> (Options config))))
    else Ret (inr config)
  else if bool_decide (Type_ config = "hashivault") then
    let vaultToken := viper_GetString viper "vault-token" in
    let config :=
      if bool_decide (vaultToken ≠ "")
      then with_Options config (<["vault-token" := vaultToken]> (Options config))
      else config in
    let vaultAddr := viper_GetString viper "vault-address" in
    let config :=
      if bool_decide (vaultAddr ≠ "")
      then with_Options config (<["vault-address" := vaultAddr]> (Options config))
      else config in
    Ret (inr config)
  else Ret (inr config).

(** Lines 176-189: template validation, then certificate creation. *)
Definition validateAndCreate (viper : gmap string string) (km : SignerVerifier)
    (config : KMSConfig) : prog makerE (option error) :=
  (* Validate template paths *)
  err ← call (certmaker_ValidateTemplatePath (viper_GetString viper "root-template"));
  match err with
  | Some err => Ret (Some (Errorf_w "root template error: " err))
  | None =>
  err ← call (certmaker_ValidateTemplatePath (viper_GetString viper "leaf-template"));
  match err with
  | Some err => Ret (Some (Errorf_w "leaf template error: " err))
  | None =>
  let create :=
    call (certmaker_CreateCertificates km config
            (viper_GetString viper "root-template")
            (viper_GetString viper "leaf-template")
            (viper_GetString viper "root-cert")
            (viper_GetString viper "leaf-cert")
            (viper_GetString viper "intermediate-key-id")
            (viper_GetString viper "intermediate-template")
            (viper_GetString viper "intermediate-cert")) in
  if bool_decide (viper_GetString viper "intermediate-key-id" ≠ "") then
    err ← call (certmaker_ValidateTemplatePath
                  (viper_GetString viper "intermediate-template"));
    match err with
    | Some err => Ret (Some (Errorf_w "intermediate template error: " err))
    | None => create
    end
  else create
  end
  end.

(** [runCreate]; the 30 second context and the deferred write to
    [rootCmd.SilenceUsage] are left out. *)
Definition runCreate (viper : gmap string string) : prog makerE (option error) :=
  (* Build KMS config from flags and environment *)
  let config := {|
    Type_ := viper_GetString viper "kms-type";
    RootKeyID := viper_GetString viper "root-key-id";
    IntermediateKeyID := viper_GetString viper "intermediate-key-id";
    LeafKeyID := viper_GetString viper "leaf-key-id";
    Options := ∅;
  |} in
  (* Handle KMS provider options *)
  r ← kmsOptions viper config;
  match r with
  | inl err => Ret (Some err)
  | inr config =>
      r ← call (certmaker_InitKMS config);
      match r with
      | inr err => Ret (Some (Errorf_w "failed to initialize KMS: " err))
      | inl km => validateAndCreate viper km config
      end
  end.

End certificate_maker.

(** ** Package signer *)

Module signer.

Definition MemoryScheme : string := "memory".

(** [crypto.SHA256] *)
Definition crypto_SHA256 : crypto_Hash := 5%N.

(** A [signature.SignerVerifier] handle, by the key it stands for. *)
Record SignerVerifier : Type := { keyRef : string }.

(** The calls of [NewCryptoSigner].  A call that returns (value, _, error)
    is answered with the value, nil or not, and the error; [kms.Get], whose
    value is read only when the error is nil, with a sum. *)
Inductive signerE : Type -> Type :=
| signature_NewECDSASignerVerifier (curve : string) (hashFunc : crypto_Hash)
  : signerE (option api.crypto_Signer * option error)
| kms_Get (keyResourceID : string) (hashFunc : crypto_Hash)
  : signerE (SignerVerifier + error)
| CryptoSigner (sv : SignerVerifier)
  : signerE (option api.crypto_Signer * option error).

Definition NewCryptoSigner (signer : string)
  : prog signerE (option api.crypto_Signer * option error) :=
  if bool_decide (signer = MemoryScheme) then
    '(sv, err) ← call (signature_NewECDSASignerVerifier "P-256" crypto_SHA256);
    Ret (sv, err)
  else
    r ← call (kms_Get signer crypto_SHA256);
    match r with
    | inr err => Ret (None, Some err)
    | inl signer =>
        '(s, err) ← call (CryptoSigner signer);
        Ret (s, err)
    end.

End signer.

(** ** Package app of cmd/timestamp-cli: the verify command *)

Module app.

(** [strings.Split(s, sep)] for a separator of one byte. *)
Fixpoint strings_Split (s : string) (sep : ascii) : list string :=
  match s with
  | EmptyString => [""]
  | String c s =>
      if bool_decide (c = sep) then "" :: strings_Split s sep
      else
        match strings_Split s sep with
        | part :: parts => String c part :: parts
        | [] => [String c ""]
        end
  end.

(** The options as this command fills them in. *)
Record VerifyOpts : Type := {
  OID : ObjectIdentifier;
  TSACertificate : option x509.Certificate;
  Intermediates : slice x509.Certificate;
  Roots : slice x509.Certificate;
  Nonce : option Z;
  CommonName : string;
}.

(** [verification.VerifyOpts{}] *)
Definition zero : VerifyOpts := {|
  OID := None; TSACertificate := None; Intermediates := None; Roots := None;
  Nonce := None; CommonName := "";
|}.

Record verifyCmdOutput : Type := { TimestampPath : string }.

Definition String (v : verifyCmdOutput) : string :=
  "Successfully verified timestamp " +:+ TimestampPath v.

(** The first result of [runVerify], an [interface{}]: nil, a
    [verifyCmdOutput] value, or a pointer to one. *)
Inductive output : Type :=
| nil_output
| value_output (v : verifyCmdOutput)
| pointer_output (v : verifyCmdOutput).

(** The calls that reach outside the process or into package verification. *)
Inductive appE : Type -> Type :=
| os_ReadFile (name : string) : appE (bytes + error)
| os_Open (name : string) : appE (Reader + error)
| verification_VerifyTimestampResponse (tsrBytes : bytes) (artifact : Reader)
    (opts : VerifyOpts) : appE (option error).

Section pure_libraries.

(** Pure functions of other packages: [filepath.Clean], [strconv.Atoi],
    [big.Int.SetString] and [cryptoutils.UnmarshalCertificatesFromPEM]. *)
Variable filepath_Clean : string -> string.
Variable strconv_Atoi : string -> Z + error.
Variable big_SetString : string -> Z -> option Z.
Variable cryptoutils_UnmarshalCertificatesFromPEM
  : bytes -> list x509.Certificate + error.

Variable viper : gmap string string.

Definition viper_GetString (key : string) : string :=
  certificate_maker.viper_GetString viper key.

Definition getNonce {E} : prog E (option Z * option error) :=
  let nonceFlagVal := viper_GetString "nonce" in
  if bool_decide (nonceFlagVal = "") then Ret (None, None)
  else
    match big_SetString nonceFlagVal 10 with
    | None => Ret (None, Some (errorString "failed to convert string to big.Int"))
    | Some nonce => Ret (Some nonce, None)
    end.

Definition getRootAndIntermediateCerts
  : prog appE (slice x509.Certificate * slice x509.Certificate * option error) :=
  let certChainPEM := viper_GetString "certificate-chain" in
  if bool_decide (certChainPEM = "") then Ret (None, None, None)
  else
    r ← call (os_ReadFile (filepath_Clean certChainPEM));
    match r with
    | inr err =>
        Ret (None, None, Some (Errorf_w "error reading request from file: " err))
    | inl pemBytes =>
        match cryptoutils_UnmarshalCertificatesFromPEM pemBytes with
        | inr err =>
            Ret (None, None,
                 Some (Errorf_w
                   "failed to parse intermediate and root certs from PEM file: " err))
        | inl certs =>
            if bool_decide (length certs = 0%nat) then
              Ret (None, None,
                   Some (errorString
                     "expected at least one certificate to represent the root"))
            else
              (* intermediate certs are above the root certificate in the PEM file *)
              let intermediateCerts := take (length certs - 1) certs in
              (* the root certificate is last in the PEM file *)
              root ← index certs (length certs - 1);
              let rootCerts := [root] in
              Ret (Some rootCerts, Some intermediateCerts, None)
        end
    end.

(** The [for i, el := range oidStrSlice] loop, from index [i] on. *)
Fixpoint getOID_range {E} (i : nat) (oidStrSlice : list string) (oid : list Z)
  : prog E (ObjectIdentifier * option error) :=
  match oidStrSlice with
  | [] => Ret (Some oid, None)
  | el :: oidStrSlice =>
      match strconv_Atoi el with
      | inr err => Ret (None, Some err)
      | inl intVar =>
          if bool_decide (i < length oid)%nat
          then getOID_range (S i) oidStrSlice (<[i:=intVar]> oid)
          else Panic "runtime error: index out of range"
      end
  end.

Definition getOID {E} : prog E (ObjectIdentifier * option error) :=
  let oidFlagVal := viper_GetString "oid" in
  if bool_decide (oidFlagVal = "") then Ret (None, None)
  else
    let oidStrSlice := strings_Split oidFlagVal "." in
    let oid := replicate (length oidStrSlice) 0 in
    getOID_range 0 oidStrSlice oid.

Definition parseTSACertificate (certPath : string)
  : prog appE (option x509.Certificate * option error) :=
  r ← call (os_ReadFile (filepath_Clean certPath));
  match r with
  | inr err =>
      Ret (None, Some (Errorf_w "error reading TSA's certificate file: " err))
  | inl pemBytes =>
      match cryptoutils_UnmarshalCertificatesFromPEM pemBytes with
      | inr err =>
          Ret (None,
               Some (Errorf_w "failed to parse TSA certificate during verification: " err))
      | inl certs =>
          if bool_decide (length certs ≠ 1%nat) then
            Ret (None,
                 Some (errorString ("expected one certificate, received " +:+
                                    pretty (length certs) +:+ " instead")))
          else
            cert ← index certs 0;
            Ret (Some cert, None)
      end
  end.

Definition newVerifyOpts : prog appE (VerifyOpts * option error) :=
  '(oid, err) ← getOID;
  match err with
  | Some err =>
      Ret (zero, Some (Errorf_w "failed to parse value from oid flag: " err))
  | None =>
  let certPathFlagVal := viper_GetString "certificate" in
  r ← (if bool_decide (certPathFlagVal ≠ "") then
         '(cert, err) ← parseTSACertificate certPathFlagVal;
         match err with
         | Some err =>
             Ret (inl (Errorf_w
                    "failed to parse cert flag value from PEM file: " err))
         | None => Ret (inr cert)
         end
       else Ret (inr None));
  match r with
  | inl err => Ret (zero, Some err)
  | inr cert =>
  '(roots, intermediates, err) ← getRootAndIntermediateCerts;
  match err with
  | Some err =>
      Ret (zero,
           Some (Errorf_w
             "failed to parse root and intermediate certs from certificate-chain flag: "
             err))
  | None =>
  '(nonce, err) ← getNonce;
  match err with
  | Some err =>
      Ret (zero, Some (Errorf_w "failed to parse value from nonce flag: " err))
  | None =>
  let commonNameFlagVal := viper_GetString "common-name" in
  Ret ({| OID := oid; TSACertificate := cert; Intermediates := intermediates;
          Roots := roots; Nonce := nonce; CommonName := commonNameFlagVal |},
       None)
  end
  end
  end
  end.

Definition runVerify : prog appE (output * option error) :=
  let tsrPath := viper_GetString "timestamp" in
  r ← call (os_ReadFile (filepath_Clean tsrPath));
  match r with
  | inr err =>
      Ret (nil_output, Some (Errorf_w "error reading request from file: " err))
  | inl tsrBytes =>
      let artifactPath := viper_GetString "artifact" in
      r ← call (os_Open (filepath_Clean artifactPath));
      match r with
      | inr err => Ret (nil_output, Some err)
      | inl artifact =>
          '(opts, err) ← newVerifyOpts;
          match err with
          | Some err =>
              Ret (value_output {| TimestampPath := tsrPath |},
                   Some (Errorf_w "failed to created VerifyOpts: " err))
          | None =>
              err ← call (verification_VerifyTimestampResponse tsrBytes artifact opts);
              Ret (pointer_output {| TimestampPath := tsrPath |}, err)
          end
      end
  end.

End pure_libraries.

End app.

(** ** The vocabulary of the specification *)

Module spec.
Import verification.

(** Extended Key Usage = exactly {time stamping}. *)
Definition only_time_stamping (cert : x509.Certificate) : Prop :=
  x509.ExtKeyUsage cert = [x509.ExtKeyUsageTimeStamping].

(** The failure InvalidExtendedKeyUsage: an error of
    [verifyExtendedKeyUsage] reported for the leaf or for an intermediate. *)
Definition InvalidExtendedKeyUsage (err : error) : Prop :=
  exists msg,
    err = Errorf_w "failed to verify EKU on leaf cert: " (errorString msg) \/
    err = Errorf_w "failed to verify EKU on intermediate cert: " (errorString msg).

(** Options that state no expectation at all. *)
Definition no_expectation : VerifyOpts := {|
  Oid := None; TsaCertificate := None; Intermediates := None; Roots := None;
  Nonce := None; Subject := ""; HashAlgorithm := None; HashedMessage := [];
|}.

(** The authority's fixed default policy OID, 1.3.6.1.4.1.57264.2. *)
Definition default_policy_OID : ObjectIdentifier :=
  Some [1; 3; 6; 1; 4; 1; 57264; 2].


(** The response a call of [CreateResponse] is asked to build. *)
Definition built_response (ev : event api.apiE) : option Timestamp.t :=
  match ev with
  | Ev e _ =>
      match e with
      | api.CreateResponse tsStruct _ _ _ => Some tsStruct
      | _ => None
      end
  end.

(** The request a call of [verification.VerifyRequest] accepted. *)
Definition validated_request (ev : event api.apiE) : option Request.t :=
  match ev with
  | Ev e x =>
      match e in api.apiE X return X -> option Request.t with
      | api.verification_VerifyRequest req =>
          fun err => match err with None => req | Some _ => None end
      | _ => fun _ => None
      end x
  end.

(** A certificate-signing call of the certificate maker. *)
Definition signs (ev : event certificate_maker.makerE) : Prop :=
  match ev with
  | Ev e _ =>
      match e with
      | certificate_maker.certmaker_CreateCertificates _ _ _ _ _ _ _ _ _ => True
      | _ => False
      end
  end.

(** The template at [path] was validated and found good. *)
Definition validated (path : string) (ev : event certificate_maker.makerE) : Prop :=
  match ev with
  | Ev e x =>
      match e in certificate_maker.makerE X return X -> Prop with
      | certificate_maker.certmaker_ValidateTemplatePath p =>
          fun err => p = path /\ err = None
      | _ => fun _ => False
      end x
  end.

(** A template was validated and found bad. *)
Definition rejected (ev : event certificate_maker.makerE) : Prop :=
  match ev with
  | Ev e x =>
      match e in certificate_maker.makerE X return X -> Prop with
      | certificate_maker.certmaker_ValidateTemplatePath p =>
          fun err => err <> None
      | _ => fun _ => False
      end x
  end.

End spec.
Import spec.

(** ** Concrete inputs *)

Module fixture.
Import verification.

(** A response whose embedded leaf certificate is not the expected one. *)
Definition expected : x509.Certificate := {|
  x509.Raw := ["001"%byte]; x509.RawIssuer := ["010"%byte];
  x509.SerialNumber := 1; x509.Subject := "CN=expected";
  x509.ExtKeyUsage := [x509.ExtKeyUsageTimeStamping];
|}.

Definition embedded : x509.Certificate := {|
  x509.Raw := ["002"%byte]; x509.RawIssuer := ["011"%byte];
  x509.SerialNumber := 2; x509.Subject := "CN=other";
  x509.ExtKeyUsage := [x509.ExtKeyUsageTimeStamping];
|}.

Definition opts : VerifyOpts := {|
  Oid := None; TsaCertificate := Some expected; Intermediates := None;
  Roots := None; Nonce := None; Subject := "CN=expected";
  HashAlgorithm := None; HashedMessage := [];
|}.

Definition digest : bytes := ["170"%byte; "187"%byte].

Definition ts : Timestamp.t := {|
  Timestamp.RawToken := ["048"%byte];
  Timestamp.HashAlgorithm := 5%N;
  Timestamp.HashedMessage := digest;
  Timestamp.Time := 0; Timestamp.Accuracy := 1000000000;
  Timestamp.Policy := Some [1; 3; 6; 1; 4; 1; 57264; 2];
  Timestamp.Ordering := false; Timestamp.Nonce := None;
  Timestamp.Qualified := false; Timestamp.Certificates := [embedded];
  Timestamp.AddTSACertificate := true; Timestamp.ExtraExtensions := None;
|}.

Definition artifact : Reader := {| content := ["104"%byte; "105"%byte]; failure := None |}.

(** Libraries that parse the response to [ts], accept its signature and
    hash the artifact to [digest]. *)
Definition env (X : Type) (e : libE X) : X :=
  match e with
  | timestamp_ParseResponse _ => inl ts
  | pkcs7_Parse raw =>
      inl {| Content := []; p7Certificates := [embedded]; Signers := [] |}
  | VerifyWithChain _ _ => None
  | Sum _ => digest
  end.

(** The trust anchor the response chains to. *)
Definition root : x509.Certificate := {|
  x509.Raw := ["003"%byte]; x509.RawIssuer := ["012"%byte];
  x509.SerialNumber := 3; x509.Subject := "CN=root";
  x509.ExtKeyUsage := [];
|}.

Definition pool : x509.CertPool := [root].

(** The same libraries on an artifact that was changed after the response
    was issued: the response parses to [ts] and its signature verifies, but
    the digest of the artifact is no longer the hashed message of [ts]. *)
Definition env_changed (X : Type) (e : libE X) : X :=
  match e with
  | timestamp_ParseResponse _ => inl ts
  | pkcs7_Parse raw =>
      inl {| Content := []; p7Certificates := [embedded]; Signers := [] |}
  | VerifyWithChain _ _ => None
  | Sum _ => ["204"%byte; "221"%byte]
  end.

(** A JSON request that names no policy, an authority and libraries that
    accept it. *)
Definition req : Request.t := {|
  Request.HashAlgorithm := 5%N; Request.HashedMessage := digest;
  Request.Certificates := true; Request.TSAPolicyOID := None;
  Request.Nonce := Some 42; Request.Extensions := None;
|}.

Definition authority : api.API := {|
  api.certChain := [expected]; api.tsaSigner := "memory";
  api.certChainPem := "";
|}.

Definition params : api.GetTimestampResponseParams := {|
  api.Request := {| content := ["123"%byte; "125"%byte]; failure := None |};
  api.Header_Get_Content_Type := "application/json";
|}.

Definition params_text : api.GetTimestampResponseParams := {|
  api.Request := {| content := ["104"%byte; "105"%byte]; failure := None |};
  api.Header_Get_Content_Type := "text/plain";
|}.

Definition env_api (X : Type) (e : api.apiE X) : X :=
  match e with
  | api.timestamp_ParseJSONRequest _ => inl req
  | api.timestamp_ParseASN1Request _ => inl req
  | api.verification_VerifyRequest (Some _) => None
  | api.verification_VerifyRequest None => Some (errorString "invalid request")
  | api.time_Now => 1667174400000000000
  | api.CreateResponse _ _ _ _ => inl ["048"%byte]
  end.

(** A certificate maker configuration with an intermediate key, and an
    environment in which every call succeeds. *)
Definition viper : gmap string string :=
  <["kms-type" := "awskms"]> (<["aws-region" := "us-east-1"]>
  (<["root-key-id" := "alias/root"]> (<["leaf-key-id" := "alias/leaf"]>
  (<["intermediate-key-id" := "alias/intermediate"]>
  (<["root-template" := "root.json"]> (<["leaf-template" := "leaf.json"]>
  (<["intermediate-template" := "intermediate.json"]> ∅))))))).

Definition env_maker (X : Type) (e : certificate_maker.makerE X) : X :=
  match e with
  | certificate_maker.os_Stat _ => None
  | certificate_maker.os_IsNotExist _ => false
  | certificate_maker.certmaker_InitKMS _ =>
      inl {| certificate_maker.keyRef := "awskms:///alias/root" |}
  | certificate_maker.certmaker_ValidateTemplatePath _ => None
  | certificate_maker.certmaker_CreateCertificates _ _ _ _ _ _ _ _ _ => None
  end.

End fixture.

(** ** What a trace shows *)

Module observe.

(** The arguments of a call of [CreateResponse]. *)
Definition created (ev : event api.apiE)
  : option (Timestamp.t * x509.Certificate * api.crypto_Signer * api.marshaller) :=
  match ev with
  | Ev e _ =>
      match e with
      | api.CreateResponse tsStruct cert signer marshalFunc =>
          Some (tsStruct, cert, signer, marshalFunc)
      | _ => None
      end
  end.

(** The serialisation a parser call belongs to. *)
Definition parser_of (ev : event api.apiE) : option api.marshaller :=
  match ev with
  | Ev e _ =>
      match e with
      | api.timestamp_ParseJSONRequest _ => Some api.json_Marshal
      | api.timestamp_ParseASN1Request _ => Some api.asn1_Marshal
      | _ => None
      end
  end.

(** The configuration a call of [certmaker.InitKMS] is given. *)
Definition init_config (ev : event certificate_maker.makerE)
  : option certificate_maker.KMSConfig :=
  match ev with
  | Ev e _ =>
      match e with
      | certificate_maker.certmaker_InitKMS config => Some config
      | _ => None
      end
  end.

(** A call of [certmaker.CreateCertificates]: the key handle, the
    configuration, the path and key arguments in order, and the answer. *)
Definition create_call (ev : event certificate_maker.makerE)
  : option (certificate_maker.SignerVerifier * certificate_maker.KMSConfig
            * list string * option error) :=
  match ev with
  | Ev e x =>
      match e in certificate_maker.makerE X return X -> _ with
      | certificate_maker.certmaker_CreateCertificates km config
          rootTemplate leafTemplate rootCert leafCert
          intermediateKeyID intermediateTemplate intermediateCert =>
          fun err =>
            Some (km, config,
                  [rootTemplate; leafTemplate; rootCert; leafCert;
                   intermediateKeyID; intermediateTemplate; intermediateCert],
                  err)
      | _ => fun _ => None
      end x
  end.

(** A call into package certmaker. *)
Definition calls_certmaker (ev : event certificate_maker.makerE) : Prop :=
  match ev with
  | Ev e _ =>
      match e with
      | certificate_maker.os_Stat _ | certificate_maker.os_IsNotExist _ => False
      | _ => True
      end
  end.

(** A call into package os. *)
Definition calls_os (ev : event certificate_maker.makerE) : Prop :=
  match ev with
  | Ev e _ =>
      match e with
      | certificate_maker.os_Stat _ | certificate_maker.os_IsNotExist _ => True
      | _ => False
      end
  end.

(** The option names [runCreate] reads for a provider type. *)
Definition provider_keys (type : string) : list string :=
  if bool_decide (type = "awskms") then ["aws-region"]
  else if bool_decide (type = "gcpkms") then ["gcp-credentials-file"]
  else if bool_decide (type = "azurekms") then ["azure-tenant-id"]
  else if bool_decide (type = "hashivault") then ["vault-token"; "vault-address"]
  else [].

(** The part of [runCreate] after the provider options. *)
Definition initAndCreate (viper : gmap string string)
    (config : certificate_maker.KMSConfig)
  : prog certificate_maker.makerE (option error) :=
  r ← call (certificate_maker.certmaker_InitKMS config);
  match r with
  | inr err => Ret (Some (Errorf_w "failed to initialize KMS: " err))
  | inl km => certificate_maker.validateAndCreate viper km config
  end.

(** A call of [verification.VerifyTimestampResponse] by the verify command,
    with its answer. *)
Definition verify_call (ev : event app.appE)
  : option (bytes * Reader * app.VerifyOpts * option error) :=
  match ev with
  | Ev e x =>
      match e in app.appE X return X -> _ with
      | app.verification_VerifyTimestampResponse tsrBytes artifact opts =>
          fun err => Some (tsrBytes, artifact, opts, err)
      | _ => fun _ => None
      end x
  end.

End observe.
Import observe.

(** ** Concrete inputs of the verify command *)

Module fixture_app.

(** Decimal digits only, as a stand-in for [strconv.Atoi]. *)
Fixpoint digits (s : string) (acc : Z) : option Z :=
  match s with
  | EmptyString => Some acc
  | String c s =>
      let d := Z.of_N (N_of_ascii c) - 48 in
      if bool_decide (0 <= d <= 9) then digits s (10 * acc + d) else None
  end.

Definition Atoi (s : string) : Z + error :=
  match s with
  | EmptyString => inr (foreignError "*strconv.NumError" "invalid syntax")
  | _ =>
      match digits s 0 with
      | Some n => inl n
      | None => inr (foreignError "*strconv.NumError" "invalid syntax")
      end
  end.

Definition SetString (s : string) (base : Z) : option Z := digits s 0.

Definition Clean (path : string) : string := path.

(** One certificate for every byte of the file. *)
Definition Unmarshal (pem : bytes) : list x509.Certificate + error :=
  inl (map (fun b => {| x509.Raw := [b]; x509.RawIssuer := [];
                        x509.SerialNumber := 0; x509.Subject := "";
                        x509.ExtKeyUsage := [] |}) pem).

Definition viper : gmap string string :=
  <["timestamp" := "response.tsr"]> (<["artifact" := "blob"]>
  (<["certificate-chain" := "chain.pem"]> (<["oid" := "1.2.3"]>
  (<["nonce" := "42"]> ∅)))).

Definition env (X : Type) (e : app.appE X) : X :=
  match e with
  | app.os_ReadFile name =>
      if bool_decide (name = "chain.pem")
      then inl ["001"%byte; "002"%byte; "003"%byte]
      else inl ["048"%byte]
  | app.os_Open _ => inl {| content := ["104"%byte]; failure := None |}
  | app.verification_VerifyTimestampResponse _ _ _ => None
  end.

End fixture_app.

(** * Properties *)

Import verification.

(** ** Runs *)

Lemma run_runs {E R} (env : forall X, E X -> X) (p : prog E R) :
  runs p (run env p).1 (run env p).2.
Proof.
  induction p as [r|msg|X e k IH]; simpl; [done | done |].
  specialize (IH (env X e)).
  destruct (run env (k (env X e))) as [tr f]. simpl in *. eauto.
Qed.

Lemma runs_bind {E R S} (p : prog E R) (k : R -> prog E S) tr f :
  runs (bind p k) tr f <->
  (exists tr1 r tr2, tr = tr1 ++ tr2 /\ runs p tr1 (Returned r) /\ runs (k r) tr2 f)
  \/ (exists msg, runs p tr (Panicked msg) /\ f = Panicked msg).
Proof.
  revert tr. induction p as [r|msg|X e k' IH]; intros tr; simpl.
  - split.
    + intros H. left. exists [], r, tr. done.
    + intros [(tr1 & r' & tr2 & -> & [-> Hr] & Hk)|(msg & [_ Hr] & _)]; by simplify_eq.
  - split.
    + intros [-> ->]. right. eauto.
    + intros [(tr1 & r' & tr2 & _ & [_ Hr] & _)|(msg' & [-> Hr] & ->)]; by simplify_eq.
  - split.
    + intros (x & tr' & -> & Hk). apply IH in Hk.
      destruct Hk as [(tr1 & r & tr2 & -> & H1 & H2)|(m & H1 & ->)].
      * left. exists (Ev e x :: tr1), r, tr2. split; [done|]. split; [|done]. eauto.
      * right. exists m. split; [|done]. eauto.
    + intros [(tr1 & r & tr2 & -> & (x & tr' & -> & H1) & H2)|(m & (x & tr' & -> & H1) & ->)].
      * exists x, (tr' ++ tr2). split; [done|]. apply IH. left. eauto 10.
      * exists x, tr'. split; [done|]. apply IH. right. eauto.
Qed.


(** ** The policy checks one by one *)

Section extended_key_usage.
Context {E : Type -> Type}.

Lemma verifyExtendedKeyUsage_pass (cert : x509.Certificate) :
  only_time_stamping cert -> verifyExtendedKeyUsage (E:=E) cert = Ret None.
Proof. unfold only_time_stamping, verifyExtendedKeyUsage. by intros ->. Qed.

Lemma verifyExtendedKeyUsage_fail (cert : x509.Certificate) :
  ~ only_time_stamping cert ->
  exists msg, verifyExtendedKeyUsage (E:=E) cert = Ret (Some (errorString msg)).
Proof.
  unfold only_time_stamping, verifyExtendedKeyUsage. intros Hne.
  destruct (x509.ExtKeyUsage cert) as [|eku0 [|eku1 ekus]]; simpl.
  - eauto.
  - case_bool_decide; [eauto | congruence].
  - eauto.
Qed.

Lemma verifyIntermediatesEKU_pass (certs : list x509.Certificate) :
  Forall only_time_stamping certs -> verifyIntermediatesEKU (E:=E) certs = Ret None.
Proof.
  induction 1 as [|cert certs Hcert _ IH]; simpl; [done|].
  by rewrite verifyExtendedKeyUsage_pass.
Qed.

Lemma verifyIntermediatesEKU_fail (certs : list x509.Certificate) :
  ~ Forall only_time_stamping certs ->
  exists err, verifyIntermediatesEKU (E:=E) certs = Ret (Some err)
              /\ InvalidExtendedKeyUsage err.
Proof.
  induction certs as [|cert certs IH]; intros Hne; simpl.
  - destruct Hne. constructor.
  - destruct (decide (only_time_stamping cert)) as [Hcert|Hcert].
    + rewrite verifyExtendedKeyUsage_pass by done. simpl.
      apply IH. intros Hall. apply Hne. by constructor.
    + destruct (verifyExtendedKeyUsage_fail cert Hcert) as [msg ->]. simpl.
      eexists. split; [done|]. exists msg. by right.
Qed.

End extended_key_usage.


(** C4.  When both an expected leaf certificate and an intermediate set are
    supplied, the EKU-chaining check passes if every certificate among the
    leaf and the intermediates carries exactly one extended key usage, time
    stamping, and otherwise fails with an invalid-extended-key-usage error. *)
Theorem eku_chaining_enforced {E : Type -> Type} (opts : VerifyOpts)
    (leaf : x509.Certificate) (intermediates : list x509.Certificate) :
  TsaCertificate opts = Some leaf ->
  Intermediates opts = Some intermediates ->
  (Forall only_time_stamping (leaf :: intermediates) ->
   verifyLeafAndIntermediatesEKU (E:=E) opts = Ret None)
  /\ (~ Forall only_time_stamping (leaf :: intermediates) ->
      exists err, verifyLeafAndIntermediatesEKU (E:=E) opts = Ret (Some err)
                  /\ InvalidExtendedKeyUsage err).
Proof.
  intros Hleaf Hints. unfold verifyLeafAndIntermediatesEKU. rewrite Hleaf, Hints.
  split.
  - intros Hall. apply Forall_cons in Hall as [Hl Hi].
    rewrite verifyExtendedKeyUsage_pass by done. simpl.
    by apply verifyIntermediatesEKU_pass.
  - intros Hne. destruct (decide (only_time_stamping leaf)) as [Hl|Hl].
    + rewrite verifyExtendedKeyUsage_pass by done. simpl.
      apply verifyIntermediatesEKU_fail. intros Hi. apply Hne. by constructor.
    + destruct (verifyExtendedKeyUsage_fail (E:=E) leaf Hl) as [msg ->]. simpl.
      eexists. split; [done|]. exists msg. by left.
Qed.

Lemma eku_chaining_enforced_witness :
  let leaf := {| x509.Raw := []; x509.RawIssuer := []; x509.SerialNumber := 1;
                 x509.Subject := "CN=tsa";
                 x509.ExtKeyUsage := [x509.ExtKeyUsageTimeStamping] |} in
  let ca := {| x509.Raw := []; x509.RawIssuer := []; x509.SerialNumber := 2;
               x509.Subject := "CN=ca";
               x509.ExtKeyUsage := [x509.ExtKeyUsageServerAuth] |} in
  let opts := {| Oid := None; TsaCertificate := Some leaf;
                 Intermediates := Some [ca]; Roots := None; Nonce := None;
                 Subject := ""; HashAlgorithm := None; HashedMessage := [] |} in
  exists err, verifyLeafAndIntermediatesEKU (E:=libE) opts = Ret (Some err)
              /\ InvalidExtendedKeyUsage err.
Proof.
  intros leaf ca opts.
  apply (eku_chaining_enforced (E:=libE) opts leaf [ca]); [reflexivity | reflexivity |].
  intros Hall. apply Forall_cons in Hall as [_ Hca].
  apply Forall_cons in Hca as [Hca _]. discriminate Hca.
Defined.

(** C5.  An expectation that is absent from the options (nil nonce, nil
    policy OID, nil expected leaf certificate, nil intermediate set) makes
    the check of that dimension return nil, whatever the response holds. *)
Theorem absent_expectation_never_rejects {E : Type -> Type} (opts : VerifyOpts) :
  (Nonce opts = None ->
   forall requestNonce, verifyNonce (E:=E) requestNonce opts = Ret None)
  /\ (Oid opts = None ->
      forall oid, verifyOID (E:=E) oid opts = Ret None)
  /\ (TsaCertificate opts = None ->
      verifyLeafAndIntermediatesEKU (E:=E) opts = Ret None
      /\ forall cert subject,
           verifyESSCertID cert opts = None
           /\ verifyLeafCertSubject subject opts = None
           /\ verifyEmbeddedLeafCert cert opts = None
           /\ verifyLeafCert cert opts = None)
  /\ (Intermediates opts = None ->
      verifyLeafAndIntermediatesEKU (E:=E) opts = Ret None).
Proof.
  split; [|split; [|split]].
  - intros H requestNonce. unfold verifyNonce. by rewrite H.
  - intros H oid. unfold verifyOID. by rewrite H.
  - intros H. split.
    + unfold verifyLeafAndIntermediatesEKU. by rewrite H.
    + intros cert subject.
      unfold verifyLeafCert, verifyESSCertID, verifyLeafCertSubject,
        verifyEmbeddedLeafCert.
      by rewrite H.
  - intros H. unfold verifyLeafAndIntermediatesEKU. rewrite H.
    by destruct (TsaCertificate opts).
Qed.

Lemma absent_expectation_never_rejects_witness :
  verifyNonce (E:=libE) (Some 7) no_expectation = Ret None
  /\ verifyOID (E:=libE) (Some [1; 2; 3]) no_expectation = Ret None
  /\ verifyLeafAndIntermediatesEKU (E:=libE) no_expectation = Ret None.
Proof.
  destruct (absent_expectation_never_rejects (E:=libE) no_expectation)
    as (Hnonce & Hoid & Hleaf & Hints).
  split; [apply Hnonce; reflexivity|].
  split; [apply Hoid; reflexivity|].
  apply Hints; reflexivity.
Defined.

(** ** Expectations that are present *)

Section bindings.
Context {E : Type -> Type}.

Lemma verifyNonce_match (n : Z) (opts : VerifyOpts) :
  Nonce opts = Some n -> verifyNonce (E:=E) (Some n) opts = Ret None.
Proof.
  intros Hn. unfold verifyNonce, Cmp. rewrite Hn, Z.compare_refl.
  by rewrite bool_decide_eq_false_2 by (intros H; by apply H).
Qed.

Lemma verifyNonce_mismatch (n m : Z) (opts : VerifyOpts) :
  Nonce opts = Some m -> n <> m ->
  exists msg, verifyNonce (E:=E) (Some n) opts = Ret (Some (errorString msg)).
Proof.
  intros Hm Hne. unfold verifyNonce, Cmp. rewrite Hm.
  destruct (Z.compare_spec m n) as [Heq|_|_]; [congruence| |];
    rewrite bool_decide_eq_true_2 by done; eauto.
Qed.

Lemma verifyOID_range_same (pre suf : list Z) :
  verifyOID_range (E:=E) (length pre) suf (pre ++ suf) = Ret None.
Proof.
  revert pre. induction suf as [|v suf IH]; intros pre; simpl; [done|].
  unfold index. rewrite list_lookup_middle by done. simpl.
  rewrite bool_decide_eq_false_2 by (intros H; by apply H).
  specialize (IH (pre ++ [v])).
  by rewrite length_app, Nat.add_1_r, <- app_assoc in IH.
Qed.

Lemma verifyOID_match (oid : ObjectIdentifier) (opts : VerifyOpts) :
  Oid opts = Some (elems oid) -> verifyOID (E:=E) oid opts = Ret None.
Proof.
  intros Hoid. unfold verifyOID, len. rewrite Hoid.
  rewrite bool_decide_eq_false_2 by (intros H; by apply H).
  apply (verifyOID_range_same []).
Qed.

End bindings.

(** A response built with the default policy OID against the expectation
    1.2.3, and a response for nonce 42 against the expectation 43. *)
Example oid_binding :
  verifyOID (E:=libE) default_policy_OID
    {| Oid := Some [1; 2; 3]; TsaCertificate := None; Intermediates := None;
       Roots := None; Nonce := None; Subject := ""; HashAlgorithm := None;
       HashedMessage := [] |}
  = Ret (Some (errorString "OID lengths do not match")).
Proof. reflexivity. Qed.

Example nonce_binding :
  verifyNonce (E:=libE) (Some 42)
    {| Oid := None; TsaCertificate := None; Intermediates := None;
       Roots := None; Nonce := Some 43; Subject := ""; HashAlgorithm := None;
       HashedMessage := [] |}
  = Ret (Some (errorString "incoming nonce 42 does not match TSR nonce 43")).
Proof. vm_compute. reflexivity. Qed.

(** ** Leaf identity *)

(** [verifyLeafCert] returns nil on every certificate and every option set. *)
Lemma verifyLeafCert_nil (cert : x509.Certificate) (opts : VerifyOpts) :
  verifyLeafCert cert opts = None.
Proof. reflexivity. Qed.

(** C1.  The code at a response whose embedded leaf certificate differs from
    the expected one in issuer, serial number, subject and raw bytes: each of
    the three sub-checks reports its mismatch, [verifyLeafCert] returns nil
    all the same, and the verification as a whole returns nil (success). *)
Theorem leaf_identity_mismatch_not_reported :
  verifyESSCertID fixture.embedded fixture.opts =
    Some (errorString
      ("TSR cert issuer does not match provided TSA cert issuer" +:+
       ", TSR cert issuer does not match provided TSA cert issuer"))
  /\ verifyLeafCertSubject (x509.Subject fixture.embedded) fixture.opts =
       Some (errorString
         "Leaf cert subject CN=expected does not match provided subject CN=other")
  /\ verifyEmbeddedLeafCert fixture.embedded fixture.opts =
       Some (errorString
         "certificate embedded in the TSR does not match the provided TSA certificate")
  /\ verifyLeafCert fixture.embedded fixture.opts = None
  /\ (run fixture.env
        (VerifyTimestampResponse [] fixture.artifact [] fixture.opts)).2
     = Returned None.
Proof. repeat split; vm_compute; reflexivity. Qed.

(** ** Past the first four checks *)


Lemma run_bind {E R S} (env : forall X, E X -> X) (p : prog E R) (k : R -> prog E S) :
  run env (bind p k) =
  match run env p with
  | (tr1, Returned r) => let '(tr2, f) := run env (k r) in (tr1 ++ tr2, f)
  | (tr1, Panicked msg) => (tr1, Panicked msg)
  end.
Proof.
  induction p as [r|msg|X e k' IH]; simpl.
  - by destruct (run env (k r)).
  - done.
  - rewrite IH. destruct (run env (k' (env X e))) as [tr1 [r|msg]]; [|done].
    by destruct (run env (k r)).
Qed.





(** When the response parses to [ts], its signature verifies and the nonce,
    policy and EKU checks return nil, what is left of the run is the read of
    [ts.Certificates[0]], the leaf step on that certificate and the hash
    check. *)
Lemma verify_reaches_leaf_read (env : forall X, libE X -> X)
    (tsrBytes : bytes) (artifact : Reader) (certPool : x509.CertPool)
    (opts : VerifyOpts) (ts : Timestamp.t) (p7 : PKCS7) :
  env _ (timestamp_ParseResponse tsrBytes) = inl ts ->
  env _ (pkcs7_Parse (Timestamp.RawToken ts)) = inl p7 ->
  env _ (VerifyWithChain p7 certPool) = None ->
  verifyNonce (E:=libE) (Timestamp.Nonce ts) opts = Ret None ->
  verifyOID (E:=libE) (Timestamp.Policy ts) opts = Ret None ->
  verifyLeafAndIntermediatesEKU (E:=libE) opts = Ret None ->
  run env (VerifyTimestampResponse tsrBytes artifact certPool opts) =
  let '(tr, f) :=
    run env (cert0 ← index (Timestamp.Certificates ts) 0;
             check! verifyLeafCert cert0 opts;
             verifyHashedMessages (New (Timestamp.HashAlgorithm ts))
                                  (Timestamp.HashedMessage ts) artifact) in
  (Ev (timestamp_ParseResponse tsrBytes) (inl ts)
     :: Ev (pkcs7_Parse (Timestamp.RawToken ts)) (inl p7)
     :: Ev (VerifyWithChain p7 certPool) None :: tr, f).
Proof.
  intros Hparse Hp7 Hchain Hnonce Hoid Heku.
  unfold VerifyTimestampResponse, verifyTSRWithChain, mbind, prog_bind, call.
  cbn [bind run]. rewrite Hparse. cbn [bind run]. rewrite Hp7.
  cbn [bind run]. rewrite Hchain. cbn [bind run]. rewrite Hnonce.
  cbn [bind run]. rewrite Hoid. cbn [bind]. rewrite Heku. cbn [bind].
  by destruct (run env _).
Qed.

(** With a certificate embedded, the run then goes on to the hash check and
    ends as the hash check ends, whatever the three leaf sub-checks find on
    that certificate. *)
Lemma leaf_identity_never_stops_run (env : forall X, libE X -> X)
    (tsrBytes : bytes) (artifact : Reader) (certPool : x509.CertPool)
    (opts : VerifyOpts) (ts : Timestamp.t) (p7 : PKCS7)
    (cert0 : x509.Certificate) :
  env _ (timestamp_ParseResponse tsrBytes) = inl ts ->
  env _ (pkcs7_Parse (Timestamp.RawToken ts)) = inl p7 ->
  env _ (VerifyWithChain p7 certPool) = None ->
  verifyNonce (E:=libE) (Timestamp.Nonce ts) opts = Ret None ->
  verifyOID (E:=libE) (Timestamp.Policy ts) opts = Ret None ->
  verifyLeafAndIntermediatesEKU (E:=libE) opts = Ret None ->
  Timestamp.Certificates ts !! 0%nat = Some cert0 ->
  run env (VerifyTimestampResponse tsrBytes artifact certPool opts) =
  let '(tr, f) :=
    run env (verifyHashedMessages (New (Timestamp.HashAlgorithm ts))
                                  (Timestamp.HashedMessage ts) artifact) in
  (Ev (timestamp_ParseResponse tsrBytes) (inl ts)
     :: Ev (pkcs7_Parse (Timestamp.RawToken ts)) (inl p7)
     :: Ev (VerifyWithChain p7 certPool) None :: tr, f).
Proof.
  intros Hparse Hp7 Hchain Hnonce Hoid Heku Hcert0.
  rewrite (verify_reaches_leaf_read env tsrBytes artifact certPool opts ts p7)
    by done.
  unfold index, mbind, prog_bind. rewrite Hcert0. reflexivity.
Qed.

(** C3.  The code at a response whose embedded leaf certificate is not the
    expected one, for an artifact whose digest is not the hashed message of
    the response.  Each of the three leaf sub-checks finds its mismatch, so
    leaf identity, the fifth check, fails.  The run does not stop there: the
    signature, nonce, policy and EKU checks having passed, the digest of the
    artifact is taken all the same (the call of [Sum] is the last of the
    trace) and the result is the failure of the hash check, the sixth. *)
Theorem verify_goes_past_failing_leaf_identity :
  verifyESSCertID fixture.embedded fixture.opts <> None
  /\ verifyLeafCertSubject (x509.Subject fixture.embedded) fixture.opts <> None
  /\ verifyEmbeddedLeafCert fixture.embedded fixture.opts <> None
  /\ run fixture.env_changed
        (VerifyTimestampResponse ["048"%byte] fixture.artifact fixture.pool
           fixture.opts)
     = ([Ev (timestamp_ParseResponse ["048"%byte]) (inl fixture.ts);
         Ev (pkcs7_Parse (Timestamp.RawToken fixture.ts))
            (inl {| Content := []; p7Certificates := [fixture.embedded];
                    Signers := [] |});
         Ev (VerifyWithChain
               {| Content := []; p7Certificates := [fixture.embedded];
                  Signers := [] |} fixture.pool) None;
         Ev (Sum {| function := Timestamp.HashAlgorithm fixture.ts;
                    written := content fixture.artifact |})
            ["204"%byte; "221"%byte]],
        Returned (Some (errorString "hashed messages don't match"))).
Proof.
  split; [|split; [|split]]; [discriminate..|].
  vm_compute. reflexivity.
Qed.



(** What the verifier itself adds to a round trip: a token that parses, whose
    signature verifies, that embeds a certificate, carries the expected nonce
    and policy and the digest of the artifact, is accepted when no leaf
    certificate is expected. *)
Lemma verify_accepts_matching_token (env : forall X, libE X -> X)
    (tsrBytes : bytes) (artifact : Reader) (certPool : x509.CertPool)
    (opts : VerifyOpts) (ts : Timestamp.t) (p7 : PKCS7) :
  env _ (timestamp_ParseResponse tsrBytes) = inl ts ->
  env _ (pkcs7_Parse (Timestamp.RawToken ts)) = inl p7 ->
  env _ (VerifyWithChain p7 certPool) = None ->
  (Nonce opts = None \/ exists n, Nonce opts = Some n /\ Timestamp.Nonce ts = Some n) ->
  (Oid opts = None \/ Oid opts = Some (elems (Timestamp.Policy ts))) ->
  TsaCertificate opts = None ->
  Timestamp.Certificates ts <> [] ->
  failure artifact = None ->
  env _ (Sum {| function := Timestamp.HashAlgorithm ts; written := content artifact |})
    = Timestamp.HashedMessage ts ->
  (run env (VerifyTimestampResponse tsrBytes artifact certPool opts)).2
  = Returned None.
Proof.
  intros Hparse Hp7 Hchain Hnonce Hoid Hleaf Hcerts Hread Hsum.
  assert (verifyNonce (E:=libE) (Timestamp.Nonce ts) opts = Ret None) as Hn.
  { destruct Hnonce as [Hn|(n & Hn & ->)].
    - unfold verifyNonce. by rewrite Hn.
    - by apply verifyNonce_match. }
  assert (verifyOID (E:=libE) (Timestamp.Policy ts) opts = Ret None) as Ho.
  { destruct Hoid as [Ho|Ho].
    - unfold verifyOID. by rewrite Ho.
    - by apply verifyOID_match. }
  assert (verifyLeafAndIntermediatesEKU (E:=libE) opts = Ret None) as He.
  { unfold verifyLeafAndIntermediatesEKU. by rewrite Hleaf. }
  unfold VerifyTimestampResponse, verifyTSRWithChain, mbind, prog_bind, call.
  cbn [bind run]. rewrite Hparse. cbn [bind run]. rewrite Hp7.
  cbn [bind run]. rewrite Hchain. cbn [bind run]. rewrite Hn.
  cbn [bind run]. rewrite Ho. cbn [bind]. rewrite He. cbn [bind].
  destruct (Timestamp.Certificates ts) as [|cert0 certs]; [done|].
  unfold index, verifyHashedMessages, io_Copy, New. simpl. rewrite Hread.
  cbn [bind run]. rewrite Hsum.
  unfold bytes_Equal. by rewrite bool_decide_eq_true_2.
Qed.

(** ** Decoding *)

Lemma parseResponseError_Unwrap (err : error) :
  Unwrap (parseResponseError err) = Some err.
Proof. unfold parseResponseError. by destruct (As_ParseError err). Qed.

Lemma parseResponseError_As (err : error) :
  As_ParseError (parseResponseError err) = As_ParseError err.
Proof. unfold parseResponseError. by destruct (As_ParseError err) eqn:H. Qed.

(** What the decoder and the verifier make of a refusal of
    [timestamp.ParseResponse]: no token, and an error that wraps the
    library's error.  The text in front of it is chosen by the Go type of
    that error alone, which [errors.As] still finds in the result. *)
Lemma decoder_wraps_refusal (env : forall X, libE X -> X)
    (tsrBytes : bytes) (err : error) :
  env _ (timestamp_ParseResponse tsrBytes) = inr err ->
  (run env (CreateTimestampResponse tsrBytes)).2
    = Returned (Timestamp.zero, Some (parseResponseError err))
  /\ (forall artifact certPool opts,
        (run env (VerifyTimestampResponse tsrBytes artifact certPool opts)).2
        = Returned (Some (parseResponseError err)))
  /\ Unwrap (parseResponseError err) = Some err
  /\ As_ParseError (parseResponseError err) = As_ParseError err
  /\ Error (parseResponseError err)
     = (if As_ParseError err
        then "timestamp response is not valid: "
        else "error parsing response into Timestamp: ") +:+ Error err.
Proof.
  intros Hrefused.
  unfold CreateTimestampResponse, VerifyTimestampResponse, mbind, prog_bind, call.
  cbn [bind run]. rewrite Hrefused. cbn [bind run snd].
  split; [done|]. split; [done|].
  split; [apply parseResponseError_Unwrap|].
  split; [apply parseResponseError_As|].
  unfold parseResponseError. by destruct (As_ParseError err).
Qed.

(** ** The issuance handler *)

Import api.






(** Take a run of a program apart, call by call. *)
Ltac runs_cases H :=
  unfold mbind, prog_bind, call in H;
  repeat (cbn [runs bind] in H;
    match type of H with
    | _ /\ _ => destruct H as [-> ->]
    | exists _, _ =>
        let x := fresh "answer" in
        let tr := fresh "tr" in
        destruct H as (x & tr & -> & H)
    | runs (match ?x with _ => _ end) _ _ => destruct x eqn:?
    | runs (if ?b then _ else _) _ _ => destruct b eqn:?
    | runs (bind (match ?x with _ => _ end) _) _ _ => destruct x eqn:?
    | runs (bind (if ?b then _ else _) _) _ _ => destruct b eqn:?
    end).


(** The other fields of a built response: copied from the accepted request,
    ordering and qualified false, accuracy one second. *)
Lemma built_response_fields (api : API) (params : GetTimestampResponseParams) tr f :
  runs (TimestampResponseHandler api params) tr f ->
  forall tsStruct, In (Some tsStruct) (map built_response tr) ->
  exists req,
    In (Some req) (map validated_request tr)
    /\ Timestamp.HashAlgorithm tsStruct = Request.HashAlgorithm req
    /\ Timestamp.HashedMessage tsStruct = Request.HashedMessage req
    /\ Timestamp.Nonce tsStruct = Request.Nonce req
    /\ Timestamp.AddTSACertificate tsStruct = Request.Certificates req
    /\ Timestamp.ExtraExtensions tsStruct = Request.Extensions req
    /\ Timestamp.Ordering tsStruct = false
    /\ Timestamp.Qualified tsStruct = false
    /\ Timestamp.Accuracy tsStruct = 1000000000.
Proof.
  intros Hrun tsStruct Hbuilt.
  unfold TimestampResponseHandler, io_ReadAll, decodeRequest, respond, index,
    nil_dereference in Hrun.
  runs_cases Hrun; simpl in Hbuilt; destruct_or?; simplify_eq; try done.
  all: eexists; (split; [simpl; eauto 6|]); done.
Qed.


(** C10.  With a Content-Type that is neither "application/json" nor
    "application/timestamp-query", the decode stage of the handler calls no
    parser and returns no response: it leaves the request nil and the content
    type empty.  Once the body is read, the one call the handler makes is
    request validation on the nil request; a rejection is answered with a bad
    request carrying the weak-hash message, an acceptance ends in the nil
    dereference of [req.TSAPolicyOID].  At the empty content type the
    marshaller selected is the DER one.  (A body that cannot be read is
    answered before the decode stage.) *)
Theorem unknown_content_type_reaches_validation (api : API)
    (params : GetTimestampResponseParams) tr f :
  Header_Get_Content_Type params <> "application/json" ->
  Header_Get_Content_Type params <> "application/timestamp-query" ->
  runs (TimestampResponseHandler api params) tr f ->
  decodeRequest params (Header_Get_Content_Type params) (content (Request params))
    = Ret (inr (None, ""))
  /\ marshalFunc "" = asn1_Marshal
  /\ match failure (Request params) with
     | Some err =>
         tr = []
         /\ f = Returned (handleTimestampAPIError params StatusBadRequest err
                            failedToGenerateTimestampResponse)
     | None =>
         exists answer,
           tr = [Ev (verification_VerifyRequest None) answer]
           /\ f = match answer with
                  | Some err =>
                      Returned (handleTimestampAPIError params StatusBadRequest err
                                  weakHashAlgorithmTimestampRequest)
                  | None =>
                      Panicked
                        "runtime error: invalid memory address or nil pointer dereference"
                  end
     end.
Proof.
  intros Hjson Hquery Hrun.
  assert (decodeRequest params (Header_Get_Content_Type params)
            (content (Request params)) = Ret (inr (None, ""))) as Hdecode.
  { unfold decodeRequest. by rewrite !bool_decide_eq_false_2. }
  split; [done|]. split; [done|].
  unfold TimestampResponseHandler, io_ReadAll in Hrun.
  destruct (failure (Request params)) as [err|].
  - by destruct Hrun as [-> ->].
  - rewrite Hdecode in Hrun. unfold respond, nil_dereference in Hrun.
    runs_cases Hrun; eauto.
Qed.

Lemma unknown_content_type_reaches_validation_witness :
  exists answer,
    (run fixture.env_api
       (TimestampResponseHandler fixture.authority fixture.params_text)).1
    = [Ev (verification_VerifyRequest None) answer].
Proof.
  destruct (unknown_content_type_reaches_validation fixture.authority
              fixture.params_text _ _ ltac:(discriminate) ltac:(discriminate)
              (run_runs fixture.env_api _))
    as (_ & _ & answer & Htr & _).
  exists answer. exact Htr.
Defined.

(** ** The certificate maker *)

Import certificate_maker.

(** Split an explicit trace at each of its positions. *)
Ltac split_trace H :=
  repeat match type of H with
  | _ = ?pre ++ _ :: _ =>
      destruct pre; simpl in H;
      [injection H as <- <- | injection H as <- H]
  | [] = _ ++ _ :: _ => by destruct (app_cons_not_nil _ _ _ H)
  end.

(** C8.  In every run of [runCreate], a certificate-signing call comes after
    the root and the leaf template, and the intermediate template when an
    intermediate key identifier is configured, were each validated and found
    good; and a run in which a template is found bad makes no signing call
    and returns an error. *)
Theorem templates_validated_before_signing (viper : gmap string string) tr f :
  runs (runCreate viper) tr f ->
  (forall pre ev post,
      tr = pre ++ ev :: post ->
      signs ev ->
      Exists (validated (viper_GetString viper "root-template")) pre
      /\ Exists (validated (viper_GetString viper "leaf-template")) pre
      /\ (viper_GetString viper "intermediate-key-id" <> "" ->
          Exists (validated (viper_GetString viper "intermediate-template")) pre))
  /\ (Exists rejected tr ->
      Forall (fun ev => ~ signs ev) tr /\ exists err, f = Returned (Some err)).
Proof.
  intros Hrun.
  unfold runCreate, kmsOptions, validateAndCreate in Hrun.
  runs_cases Hrun.
  all: split;
    [ intros pre ev post Hsplit Hsigns
    | intros Hrej ].
  all: try (exfalso; revert Hrej; rewrite !Exists_cons, Exists_nil; simpl; tauto).
  all: try (split; [repeat constructor; simpl; tauto | eauto]).
  all: split_trace Hsplit; try (by destruct Hsigns).
  all: repeat split; try (intros ?); 
    try match goal with
    | H : bool_decide _ = false, H' : _ <> "" |- _ =>
        apply bool_decide_eq_false in H; by destruct H
    end;
    rewrite !Exists_cons; simpl; tauto.
Qed.

Lemma templates_validated_before_signing_witness :
  let tr := (run fixture.env_maker (runCreate fixture.viper)).1 in
  length tr = 5%nat
  /\ Exists (validated "root.json") (take 4 tr)
  /\ Exists (validated "leaf.json") (take 4 tr)
  /\ Exists (validated "intermediate.json") (take 4 tr).
Proof.
  intros tr. split; [vm_compute; reflexivity|].
  destruct (templates_validated_before_signing fixture.viper _ _
              (run_runs fixture.env_maker (runCreate fixture.viper)))
    as [Hbefore _].
  edestruct (Hbefore (take 4 tr)) as (Hroot & Hleaf & Hint).
  - symmetry. apply (take_drop_middle tr 4). vm_compute. reflexivity.
  - exact I.
  - split; [exact Hroot|]. split; [exact Hleaf|].
    apply Hint. vm_compute. discriminate.
Defined.

(** * Further properties of the code *)

(** ** Results of runs *)


Lemma result_bind {E R S} (env : forall X, E X -> X) (p : prog E R) (k : R -> prog E S) :
  (run env (bind p k)).2 =
  match (run env p).2 with
  | Returned r => (run env (k r)).2
  | Panicked msg => Panicked msg
  end.
Proof.
  rewrite run_bind. destruct (run env p) as [tr1 [r|msg]]; simpl; [|done].
  by destruct (run env (k r)).
Qed.

(** ** The policy OID check *)

Lemma verifyOID_range_decides {E} (oid responseOid pre : list Z) :
  length oid = length responseOid ->
  verifyOID_range (E:=E) (length pre) oid (pre ++ responseOid) =
  Ret (if bool_decide (oid = responseOid) then None
       else Some (errorString "OID content does not match")).
Proof.
  revert responseOid pre.
  induction oid as [|v oid IH]; intros [|r responseOid] pre Hlen;
    simpl in Hlen; try discriminate; simpl; [done|].
  unfold index. rewrite list_lookup_middle by done. simpl.
  case_bool_decide as Hv.
  - rewrite bool_decide_eq_false_2; [done|]. intros [= ? ?]. by apply Hv.
  - try apply dec_stable in Hv. subst r.
    specialize (IH responseOid (pre ++ [v])).
    rewrite length_app, Nat.add_1_r, <- app_assoc in IH. simpl in IH.
    rewrite IH by lia.
    f_equal. repeat case_bool_decide; congruence.
Qed.

(** When a policy OID is expected, [verifyOID] never panics and decides
    equality with the response's OID: a different number of components is
    reported as a length mismatch, the same number with a different component
    as a content mismatch, and nil is returned exactly on equal sequences. *)
Theorem verifyOID_decides {E : Type -> Type} (oid : ObjectIdentifier)
    (opts : VerifyOpts) (responseOid : list Z) :
  Oid opts = Some responseOid ->
  verifyOID (E:=E) oid opts =
  Ret (if bool_decide (length (elems oid) <> length responseOid)
       then Some (errorString "OID lengths do not match")
       else if bool_decide (elems oid = responseOid) then None
            else Some (errorString "OID content does not match"))
  /\ (verifyOID (E:=E) oid opts = Ret None <-> elems oid = responseOid).
Proof.
  intros Hoid.
  assert (verifyOID (E:=E) oid opts =
          Ret (if bool_decide (length (elems oid) <> length responseOid)
               then Some (errorString "OID lengths do not match")
               else if bool_decide (elems oid = responseOid) then None
                    else Some (errorString "OID content does not match"))) as Hform.
  { unfold verifyOID, len. rewrite Hoid. case_bool_decide as Hlen; [done|].
    try apply dec_stable in Hlen.
    by apply (verifyOID_range_decides (elems oid) responseOid []). }
  split; [exact Hform|]. rewrite Hform. split.
  - intros Hnil. repeat case_bool_decide; congruence.
  - intros Heq. rewrite bool_decide_eq_false_2 by (rewrite Heq; intros H; by apply H).
    by rewrite bool_decide_eq_true_2.
Qed.

Lemma verifyOID_decides_witness :
  verifyOID (E:=libE) (Some [1; 2; 4])
    {| Oid := Some [1; 2; 3]; TsaCertificate := None; Intermediates := None;
       Roots := None; Nonce := None; Subject := ""; HashAlgorithm := None;
       HashedMessage := [] |}
  = Ret (Some (errorString "OID content does not match")).
Proof.
  exact (proj1 (verifyOID_decides (E:=libE) (Some [1; 2; 4])
                  {| Oid := Some [1; 2; 3]; TsaCertificate := None;
                     Intermediates := None; Roots := None; Nonce := None;
                     Subject := ""; HashAlgorithm := None; HashedMessage := [] |}
                  [1; 2; 3] eq_refl)).
Defined.

(** ** The leaf sub-checks *)

(** With an expected certificate, each leaf sub-check returns nil exactly on
    a match: [verifyESSCertID] when raw issuer and serial number are equal,
    [verifyLeafCertSubject] when the subject it is given is the expected
    certificate's, [verifyEmbeddedLeafCert] when the raw bytes are equal. *)
Theorem leaf_subchecks_decide (cert expected : x509.Certificate)
    (subject : string) (opts : VerifyOpts) :
  TsaCertificate opts = Some expected ->
  (verifyESSCertID cert opts = None <->
   x509.RawIssuer expected = x509.RawIssuer cert
   /\ x509.SerialNumber expected = x509.SerialNumber cert)
  /\ (verifyLeafCertSubject subject opts = None <->
      x509.Subject expected = subject)
  /\ (verifyEmbeddedLeafCert cert opts = None <->
      x509.Raw expected = x509.Raw cert).
Proof.
  intros Hexp. split; [|split].
  - unfold verifyESSCertID, bytes_Equal, Cmp. rewrite Hexp.
    destruct (Z.compare_spec (x509.SerialNumber expected) (x509.SerialNumber cert))
      as [Hs|Hs|Hs];
      destruct (decide (x509.RawIssuer expected = x509.RawIssuer cert)) as [Hi|Hi];
      rewrite ?(bool_decide_eq_true_2 _ Hi), ?(bool_decide_eq_false_2 _ Hi);
      simpl; split; try done; try (intros [? ?]; done || lia).
  - unfold verifyLeafCertSubject. rewrite Hexp.
    case_bool_decide as Hs; split; try done.
  - unfold verifyEmbeddedLeafCert, x509.Equal, bytes_Equal. rewrite Hexp.
    case_bool_decide; simpl; by split.
Qed.

Lemma leaf_subchecks_decide_witness :
  verifyESSCertID fixture.expected fixture.opts = None
  /\ verifyEmbeddedLeafCert fixture.expected fixture.opts = None.
Proof.
  destruct (leaf_subchecks_decide fixture.expected fixture.expected "" fixture.opts
              eq_refl) as (Hess & _ & Hraw).
  split; [apply Hess; split; reflexivity | apply Hraw; reflexivity].
Defined.

(** ** What acceptance means *)







Lemma verify_accepts_matching_token_witness :
  (run fixture.env
     (VerifyTimestampResponse [] fixture.artifact [] no_expectation)).2
  = Returned None.
Proof.
  apply (verify_accepts_matching_token fixture.env [] fixture.artifact []
           no_expectation fixture.ts
           {| Content := []; p7Certificates := [fixture.embedded]; Signers := [] |});
    try reflexivity.
  - left. reflexivity.
  - left. reflexivity.
  - discriminate.
Defined.

(** A nonce is expected and the verified response carries none: the nonce
    check reads through the nil nonce and [VerifyTimestampResponse] panics
    instead of reporting a mismatch. *)
Theorem verify_panics_on_missing_nonce (env : forall X, libE X -> X)
    (tsrBytes : bytes) (artifact : Reader) (certPool : x509.CertPool)
    (opts : VerifyOpts) (ts : Timestamp.t) (p7 : PKCS7) (n : Z) :
  env _ (timestamp_ParseResponse tsrBytes) = inl ts ->
  env _ (pkcs7_Parse (Timestamp.RawToken ts)) = inl p7 ->
  env _ (VerifyWithChain p7 certPool) = None ->
  Nonce opts = Some n ->
  Timestamp.Nonce ts = None ->
  run env (VerifyTimestampResponse tsrBytes artifact certPool opts) =
  ([Ev (timestamp_ParseResponse tsrBytes) (inl ts);
    Ev (pkcs7_Parse (Timestamp.RawToken ts)) (inl p7);
    Ev (VerifyWithChain p7 certPool) None],
   Panicked "runtime error: invalid memory address or nil pointer dereference").
Proof.
  intros Hparse Hp7 Hchain Hn Hts.
  unfold VerifyTimestampResponse, verifyTSRWithChain, mbind, prog_bind, call.
  cbn [bind run]. rewrite Hparse. cbn [bind run]. rewrite Hp7.
  cbn [bind run]. rewrite Hchain. cbn [bind run].
  unfold verifyNonce. rewrite Hn, Hts. reflexivity.
Qed.

Lemma verify_panics_on_missing_nonce_witness :
  (run fixture.env
     (VerifyTimestampResponse [] fixture.artifact []
        {| Oid := None; TsaCertificate := None; Intermediates := None;
           Roots := None; Nonce := Some 7; Subject := ""; HashAlgorithm := None;
           HashedMessage := [] |})).2
  = Panicked "runtime error: invalid memory address or nil pointer dereference".
Proof.
  exact (f_equal snd
           (verify_panics_on_missing_nonce fixture.env [] fixture.artifact []
              {| Oid := None; TsaCertificate := None; Intermediates := None;
                 Roots := None; Nonce := Some 7; Subject := "";
                 HashAlgorithm := None; HashedMessage := [] |}
              fixture.ts
              {| Content := []; p7Certificates := [fixture.embedded]; Signers := [] |}
              7 eq_refl eq_refl eq_refl eq_refl eq_refl)).
Defined.

(** ** Options the verifier never reads *)

(** Two option sets that agree on the expected OID, leaf certificate,
    intermediates and nonce give the same run: the roots, subject, hash
    algorithm and hashed message of the options have no effect. *)
Theorem verify_reads_four_options (env : forall X, libE X -> X)
    (tsrBytes : bytes) (artifact : Reader) (certPool : x509.CertPool)
    (opts opts' : VerifyOpts) :
  Oid opts = Oid opts' ->
  TsaCertificate opts = TsaCertificate opts' ->
  Intermediates opts = Intermediates opts' ->
  Nonce opts = Nonce opts' ->
  run env (VerifyTimestampResponse tsrBytes artifact certPool opts) =
  run env (VerifyTimestampResponse tsrBytes artifact certPool opts').
Proof.
  intros Hoid Hleaf Hints Hnonce.
  assert (forall n, verifyNonce (E:=libE) n opts = verifyNonce n opts') as Hn.
  { intros n. unfold verifyNonce. by rewrite Hnonce. }
  assert (forall oid, verifyOID (E:=libE) oid opts = verifyOID oid opts') as Ho.
  { intros oid. unfold verifyOID. by rewrite Hoid. }
  assert (verifyLeafAndIntermediatesEKU (E:=libE) opts =
          verifyLeafAndIntermediatesEKU opts') as He.
  { unfold verifyLeafAndIntermediatesEKU. by rewrite Hleaf, Hints. }
  unfold VerifyTimestampResponse, mbind, prog_bind, call. cbn [bind run].
  destruct (env _ (timestamp_ParseResponse tsrBytes)) as [ts|err]; [|done].
  f_equal.
  rewrite !(run_bind env (verifyTSRWithChain ts certPool)).
  destruct (run env (verifyTSRWithChain ts certPool)) as [tr1 [[err|]|msg]];
    [done| |done].
  f_equal. rewrite Hn, !(run_bind env (verifyNonce _ opts')).
  destruct (run env (verifyNonce (Timestamp.Nonce ts) opts')) as [tr2 [[err|]|msg]];
    [done| |done].
  f_equal. rewrite Ho, !(run_bind env (verifyOID _ opts')).
  destruct (run env (verifyOID (Timestamp.Policy ts) opts')) as [tr3 [[err|]|msg]];
    [done| |done].
  f_equal. rewrite He, !(run_bind env (verifyLeafAndIntermediatesEKU opts')).
  destruct (run env (verifyLeafAndIntermediatesEKU opts')) as [tr4 [[err|]|msg]];
    [done| |done].
  done.
Qed.

Lemma verify_reads_four_options_witness :
  run fixture.env (VerifyTimestampResponse [] fixture.artifact [] fixture.opts) =
  run fixture.env
    (VerifyTimestampResponse [] fixture.artifact []
       {| Oid := None; TsaCertificate := Some fixture.expected;
          Intermediates := None; Roots := Some [fixture.embedded]; Nonce := None;
          Subject := "CN=somebody else"; HashAlgorithm := None;
          HashedMessage := fixture.digest |}).
Proof.
  apply (verify_reads_four_options fixture.env); reflexivity.
Defined.

(** ** The handler: format, status and chain *)

(** A response is built only for the two known content types, after exactly
    one parser call, the parser of that content type; it is serialised with
    the marshaller of the same content type (JSON for "application/json", DER
    for "application/timestamp-query") and signed by the authority's signer
    for the first certificate of its chain. *)
Theorem response_mirrors_content_type (api : API)
    (params : GetTimestampResponseParams) tr f :
  runs (TimestampResponseHandler api params) tr f ->
  forall tsStruct cert signer marshal,
    In (Some (tsStruct, cert, signer, marshal)) (map created tr) ->
    omap parser_of tr = [marshal]
    /\ ((Header_Get_Content_Type params = "application/json"
         /\ marshal = json_Marshal)
        \/ (Header_Get_Content_Type params = "application/timestamp-query"
            /\ marshal = asn1_Marshal))
    /\ certChain api !! 0%nat = Some cert
    /\ signer = tsaSigner api.
Proof.
  intros Hrun tsStruct cert signer marshal Hcreated.
  unfold TimestampResponseHandler, io_ReadAll, decodeRequest, respond, index,
    nil_dereference, marshalFunc in Hrun.
  runs_cases Hrun; simpl in Hcreated; destruct_or?; simplify_eq; try done.
  all: repeat match goal with
       | H : bool_decide _ = true |- _ => apply bool_decide_eq_true in H
       | H : bool_decide _ = false |- _ => apply bool_decide_eq_false in H
       end.
  all: rewrite ?bool_decide_eq_true_2, ?bool_decide_eq_false_2 by done.
  all: split; [done|]; split; [tauto|done].
Qed.

Lemma response_mirrors_content_type_witness :
  omap parser_of
    (run fixture.env_api
       (TimestampResponseHandler fixture.authority fixture.params)).1
  = [json_Marshal].
Proof.
  refine (proj1 (response_mirrors_content_type fixture.authority fixture.params
                   _ _ (run_runs fixture.env_api _) _ fixture.expected "memory"
                   json_Marshal _)).
  vm_compute. right. right. right. left. reflexivity.
Defined.

(** What the handler answers when it returns.  A created response carries
    the bytes the last call, [CreateResponse], handed back.  An error answer
    is for this request and has status 500 exactly when [CreateResponse]
    failed, status 400 otherwise; it carries the weak-hash message exactly
    when request validation rejected the request; and its error is the error
    of the last call made, or of reading the body when no call was made. *)
Theorem handler_answers (api : API) (params : GetTimestampResponseParams) tr r :
  runs (TimestampResponseHandler api params) tr (Returned r) ->
  match r with
  | GetTimestampResponseCreated payload =>
      exists tsStruct cert signer marshal,
        last tr = Some (Ev (CreateResponse tsStruct cert signer marshal) (inl payload))
  | handleTimestampAPIError params' code err msg =>
      params' = params
      /\ ((code = StatusInternalServerError
           /\ msg = failedToGenerateTimestampResponse
           /\ exists tsStruct cert signer marshal,
                last tr = Some (Ev (CreateResponse tsStruct cert signer marshal)
                                   (inr err)))
          \/ (code = StatusBadRequest
              /\ msg = weakHashAlgorithmTimestampRequest
              /\ exists req,
                   last tr = Some (Ev (verification_VerifyRequest req) (Some err)))
          \/ (code = StatusBadRequest
              /\ msg = failedToGenerateTimestampResponse
              /\ ((tr = [] /\ failure (Request params) = Some err)
                  \/ tr = [Ev (timestamp_ParseJSONRequest (content (Request params)))
                              (inr err)]
                  \/ tr = [Ev (timestamp_ParseASN1Request (content (Request params)))
                              (inr err)])))
  end.
Proof.
  remember (Returned r) as f eqn:Hf. intros Hrun.
  unfold TimestampResponseHandler, io_ReadAll, decodeRequest, respond, index,
    nil_dereference in Hrun.
  runs_cases Hrun; simplify_eq; simpl; eauto 12.
  all: try (split; [done|]; eauto 12).
Qed.

Lemma handler_answers_witness :
  exists tsStruct cert signer marshal,
    last (run fixture.env_api
            (TimestampResponseHandler fixture.authority fixture.params)).1
    = Some (Ev (CreateResponse tsStruct cert signer marshal) (inl ["048"%byte])).
Proof.
  exact (handler_answers fixture.authority fixture.params _
           (GetTimestampResponseCreated ["048"%byte])
           (run_runs fixture.env_api _)).
Defined.

Lemma built_response_fields_witness :
  exists req,
    In (Some req)
       (map validated_request
          (run fixture.env_api
             (TimestampResponseHandler fixture.authority fixture.params)).1)
    /\ Request.Nonce req = Some 42.
Proof.
  destruct (built_response_fields fixture.authority fixture.params _ _
              (run_runs fixture.env_api _)
              {| Timestamp.RawToken := [];
                 Timestamp.HashAlgorithm := 5%N;
                 Timestamp.HashedMessage := fixture.digest;
                 Timestamp.Time := 1667174400000000000;
                 Timestamp.Accuracy := 1000000000;
                 Timestamp.Policy := default_policy_OID;
                 Timestamp.Ordering := false;
                 Timestamp.Nonce := Some 42;
                 Timestamp.Qualified := false;
                 Timestamp.Certificates := [];
                 Timestamp.AddTSACertificate := true;
                 Timestamp.ExtraExtensions := None |})
    as (req & Hin & _ & _ & Hnonce & _).
  - vm_compute. right. right. right. left. reflexivity.
  - exists req. split; [exact Hin|]. symmetry. exact Hnonce.
Defined.

(** An authority whose chain is empty never builds a response: every run
    makes no [CreateResponse] call and does not end in a created response,
    and a run in which validation accepted the request ends in the
    index-out-of-range panic of [api.certChain[0]]. *)
Theorem empty_chain_never_answers (api : API)
    (params : GetTimestampResponseParams) tr f :
  certChain api = [] ->
  runs (TimestampResponseHandler api params) tr f ->
  Forall (fun ev => created ev = None) tr
  /\ (forall payload, f <> Returned (GetTimestampResponseCreated payload))
  /\ (forall req, In (Some req) (map validated_request tr) ->
      f = Panicked "runtime error: index out of range").
Proof.
  intros Hchain Hrun.
  unfold TimestampResponseHandler, io_ReadAll, decodeRequest, respond, index,
    nil_dereference in Hrun.
  rewrite Hchain in Hrun.
  runs_cases Hrun; try (by simplify_eq/=).
  all: split; [repeat constructor|].
  all: split; [done|].
  all: intros req Hin; simpl in Hin; destruct_or?; simplify_eq; done.
Qed.

Lemma empty_chain_never_answers_witness :
  (run fixture.env_api
     (TimestampResponseHandler
        {| certChain := []; tsaSigner := "memory"; certChainPem := "" |}
        fixture.params)).2
  = Panicked "runtime error: index out of range".
Proof.
  destruct (empty_chain_never_answers
              {| certChain := []; tsaSigner := "memory"; certChainPem := "" |}
              fixture.params _ _ eq_refl (run_runs fixture.env_api _))
    as (_ & _ & Hpanic).
  apply (Hpanic fixture.req). vm_compute. right. left. reflexivity.
Defined.

(** ** The certificate maker: configuration and calls *)

Lemma kmsOptions_result (viper : gmap string string) (config : KMSConfig) tr f :
  Options config = ∅ ->
  runs (kmsOptions viper config) tr f ->
  Forall calls_os tr
  /\ ((exists err, f = Returned (inl err))
      \/ exists config',
           f = Returned (inr config')
           /\ Type_ config' = Type_ config
           /\ RootKeyID config' = RootKeyID config
           /\ IntermediateKeyID config' = IntermediateKeyID config
           /\ LeafKeyID config' = LeafKeyID config
           /\ forall key value,
                Options config' !! key = Some value <->
                In key (provider_keys (Type_ config))
                /\ value = viper_GetString viper key
                /\ value <> "").
Proof.
  intros Hempty Hrun. unfold kmsOptions in Hrun.
  runs_cases Hrun.
  all: split; [repeat constructor|].
  all: try (left; eexists; reflexivity).
  all: right; eexists; split; [reflexivity|].
  all: repeat match goal with
       | H : bool_decide _ = true |- _ => apply bool_decide_eq_true in H
       | H : bool_decide _ = false |- _ => apply bool_decide_eq_false in H
       end.
  all: repeat case_bool_decide; simpl.
  all: do 4 (split; [reflexivity|]).
  all: intros key value; unfold provider_keys.
  all: repeat case_bool_decide; try congruence.
  all: rewrite ?Hempty; simpl; rewrite ?lookup_insert, ?lookup_empty.
  all: repeat case_decide; subst.
  all: split;
       [ intros ?; simplify_eq; try (intuition congruence)
       | intros (Hk & -> & Hv); destruct_or?; subst; try done;
         try (intuition congruence) ].
Qed.

Lemma runCreate_runs (viper : gmap string string) tr f :
  runs (runCreate viper) tr f ->
  exists tr1 tr2,
    tr = tr1 ++ tr2
    /\ Forall calls_os tr1
    /\ ((tr2 = [] /\ exists err, f = Returned (Some err))
        \/ exists config,
             runs (initAndCreate viper config) tr2 f
             /\ Type_ config = viper_GetString viper "kms-type"
             /\ RootKeyID config = viper_GetString viper "root-key-id"
             /\ IntermediateKeyID config = viper_GetString viper "intermediate-key-id"
             /\ LeafKeyID config = viper_GetString viper "leaf-key-id"
             /\ forall key value,
                  Options config !! key = Some value <->
                  In key (provider_keys (viper_GetString viper "kms-type"))
                  /\ value = viper_GetString viper key
                  /\ value <> "").
Proof.
  unfold runCreate, mbind, prog_bind. intros Hrun.
  apply runs_bind in Hrun as [(tr1 & r & tr2 & -> & Hkms & Hk)|(msg & Hkms & ->)];
    apply kmsOptions_result in Hkms as [Hos Hres]; try done.
  - exists tr1, tr2. split; [done|]. split; [done|].
    destruct Hres as [[err Herr]|(config & Hc & Hty & Hroot & Hint & Hleaf & Hopt)];
      simplify_eq.
    + destruct Hk as [-> ->]. left. eauto.
    + right. exists config. simpl in *. done.
  - by destruct Hres as [[err Herr]|(config & Hc & _)].
Qed.

Lemma os_calls_unobserved tr :
  Forall calls_os tr ->
  Forall (fun ev => init_config ev = None /\ create_call ev = None
                    /\ ~ calls_certmaker ev) tr.
Proof.
  induction 1 as [|[X e x] tr Hev _ IH]; constructor; [|done].
  destruct e; simpl in *; try done; tauto.
Qed.

Lemma not_In_map_None {A B} (g : A -> option B) (l : list A) (b : B) :
  Forall (fun a => g a = None) l -> ~ In (Some b) (map g l).
Proof.
  induction 1 as [|a l Ha _ IH]; simpl; [tauto|].
  intros [Heq|Hin]; [congruence|tauto].
Qed.

(** The configuration handed to [certmaker.InitKMS] takes its type and key
    identifiers from the store, and its options hold exactly the options of
    the selected provider that are set to a non-empty string, each with the
    value of the store: no option of another provider, no empty value. *)
Theorem kms_options_of_selected_provider (viper : gmap string string) tr f :
  runs (runCreate viper) tr f ->
  forall config, In (Some config) (map init_config tr) ->
  Type_ config = viper_GetString viper "kms-type"
  /\ RootKeyID config = viper_GetString viper "root-key-id"
  /\ IntermediateKeyID config = viper_GetString viper "intermediate-key-id"
  /\ LeafKeyID config = viper_GetString viper "leaf-key-id"
  /\ forall key value,
       Options config !! key = Some value <->
       In key (provider_keys (Type_ config))
       /\ value = viper_GetString viper key
       /\ value <> "".
Proof.
  intros Hrun config Hin.
  apply runCreate_runs in Hrun as (tr1 & tr2 & -> & Hos & Hrest).
  rewrite map_app, in_app_iff in Hin. destruct Hin as [Hin|Hin].
  { apply os_calls_unobserved in Hos. exfalso.
    apply (not_In_map_None init_config tr1 config); [|done].
    eapply Forall_impl; [exact Hos|]. by intros ev (? & _). }
  destruct Hrest as [[-> _]|(config' & Hrun & Hty & Hroot & Hint & Hleaf & Hopt)];
    [done|].
  assert (config = config') as ->.
  { unfold initAndCreate, validateAndCreate in Hrun.
    runs_cases Hrun; simpl in Hin; destruct_or?; by simplify_eq. }
  rewrite Hty. done.
Qed.

Lemma kms_options_of_selected_provider_witness :
  In (Some {| Type_ := "awskms"; RootKeyID := "alias/root";
              IntermediateKeyID := "alias/intermediate";
              LeafKeyID := "alias/leaf";
              Options := <["aws-region" := "us-east-1"]> ∅ |})
     (map init_config (run fixture.env_maker (runCreate fixture.viper)).1)
  /\ (<["aws-region" := "us-east-1"]> (∅ : gmap string string) !! "aws-region"
      = Some "us-east-1" <->
      In "aws-region" (provider_keys "awskms")
      /\ "us-east-1" = viper_GetString fixture.viper "aws-region"
      /\ "us-east-1" <> "").
Proof.
  assert (Hin : In (Some {| Type_ := "awskms"; RootKeyID := "alias/root";
              IntermediateKeyID := "alias/intermediate";
              LeafKeyID := "alias/leaf";
              Options := <["aws-region" := "us-east-1"]> ∅ |})
     (map init_config (run fixture.env_maker (runCreate fixture.viper)).1)).
  { vm_compute. left. reflexivity. }
  split; [exact Hin|].
  destruct (kms_options_of_selected_provider fixture.viper _ _
              (run_runs fixture.env_maker _) _ Hin)
    as (_ & _ & _ & _ & Hopt).
  exact (Hopt "aws-region" "us-east-1").
Defined.

(** With provider type "gcpkms" and a credentials file configured, the first
    call of [runCreate] is [os.Stat] on that file, and when it fails the run
    returns an error without a single call into package certmaker.  In every
    other configuration [runCreate] makes no call into package os. *)
Theorem credentials_file_checked_first (viper : gmap string string) tr f :
  runs (runCreate viper) tr f ->
  (viper_GetString viper "kms-type" = "gcpkms"
   /\ viper_GetString viper "gcp-credentials-file" <> "" ->
   exists answer rest,
     tr = Ev (os_Stat (viper_GetString viper "gcp-credentials-file")) answer :: rest
     /\ (answer <> None ->
         Forall calls_os tr /\ exists err, f = Returned (Some err)))
  /\ (~ (viper_GetString viper "kms-type" = "gcpkms"
         /\ viper_GetString viper "gcp-credentials-file" <> "") ->
      Forall calls_certmaker tr).
Proof.
  intros Hrun.
  unfold runCreate, kmsOptions, validateAndCreate in Hrun.
  runs_cases Hrun.
  all: repeat match goal with
       | H : bool_decide _ = true |- _ => apply bool_decide_eq_true in H
       | H : bool_decide _ = false |- _ => apply bool_decide_eq_false in H
       end.
  all: simpl in *.
  all: split; [intros [Hty Hfile]|intros Hnot].
  all: try congruence.
  all: try (by repeat constructor).
  all: try (exfalso; apply Hnot; by split).
  all: eexists _, _; (split; [reflexivity|]); intros Hans; try done.
  all: split; [by repeat constructor|by eexists].
Qed.

Lemma credentials_file_checked_first_witness :
  Forall calls_certmaker (run fixture.env_maker (runCreate fixture.viper)).1.
Proof.
  apply (credentials_file_checked_first fixture.viper _ _
           (run_runs fixture.env_maker _)).
  intros [Hty _]. vm_compute in Hty. discriminate Hty.
Defined.

(** [certmaker.CreateCertificates] is called at most once, as the last call
    of the run, with the key handle [certmaker.InitKMS] returned for the very
    same configuration and with the template, certificate and key arguments
    of the store; what it returns is what [runCreate] returns. *)
Theorem create_follows_init (viper : gmap string string) tr f :
  runs (runCreate viper) tr f ->
  forall km config args result,
    In (Some (km, config, args, result)) (map create_call tr) ->
    In (Ev (certmaker_InitKMS config) (inl km)) tr
    /\ args = [viper_GetString viper "root-template";
               viper_GetString viper "leaf-template";
               viper_GetString viper "root-cert";
               viper_GetString viper "leaf-cert";
               viper_GetString viper "intermediate-key-id";
               viper_GetString viper "intermediate-template";
               viper_GetString viper "intermediate-cert"]
    /\ f = Returned result
    /\ omap create_call tr = [(km, config, args, result)]
    /\ (exists ev, last tr = Some ev /\ create_call ev = Some (km, config, args, result)).
Proof.
  intros Hrun km config args result Hin.
  apply runCreate_runs in Hrun as (tr1 & tr2 & -> & Hos & Hrest).
  apply os_calls_unobserved in Hos.
  assert (Forall (fun ev => create_call ev = None) tr1) as Hnone.
  { eapply Forall_impl; [exact Hos|]. by intros ev (_ & ? & _). }
  assert (omap create_call tr1 = []) as Homap.
  { clear -Hnone. induction Hnone as [|ev tr1 Hev _ IH]; [done|].
    simpl. by rewrite Hev. }
  rewrite map_app, in_app_iff in Hin. destruct Hin as [Hin|Hin].
  { exfalso. by apply (not_In_map_None create_call tr1 (km, config, args, result)). }
  destruct Hrest as [[-> _]|(config' & Hrun & _)]; [done|].
  rewrite omap_app, Homap, in_app_iff. simpl.
  unfold initAndCreate, validateAndCreate in Hrun.
  runs_cases Hrun; simpl in Hin; destruct_or?; simplify_eq; try done.
  all: split; [right; simpl; tauto|].
  all: do 3 (split; [reflexivity|]).
  all: eexists; split; [by rewrite last_app|reflexivity].
Qed.

Lemma create_follows_init_witness :
  exists km config,
    In (Ev (certmaker_InitKMS config) (inl km))
       (run fixture.env_maker (runCreate fixture.viper)).1
    /\ (run fixture.env_maker (runCreate fixture.viper)).2 = Returned None.
Proof.
  exists {| certificate_maker.keyRef := "awskms:///alias/root" |},
         {| Type_ := "awskms"; RootKeyID := "alias/root";
            IntermediateKeyID := "alias/intermediate"; LeafKeyID := "alias/leaf";
            Options := <["aws-region" := "us-east-1"]> ∅ |}.
  destruct (create_follows_init fixture.viper _ _ (run_runs fixture.env_maker _)
              {| certificate_maker.keyRef := "awskms:///alias/root" |}
              {| Type_ := "awskms"; RootKeyID := "alias/root";
                 IntermediateKeyID := "alias/intermediate";
                 LeafKeyID := "alias/leaf";
                 Options := <["aws-region" := "us-east-1"]> ∅ |}
              ["root.json"; "leaf.json"; ""; ""; "alias/intermediate";
               "intermediate.json"; ""]
              None)
    as (Hinit & _ & Hf & _).
  - vm_compute. do 4 right. left. reflexivity.
  - split; [exact Hinit|exact Hf].
Defined.

(** ** The signer *)

Import signer.

(** [NewCryptoSigner] makes its key in process exactly for the name "memory",
    with one call and no call to the KMS, and hands back what that call
    returned.  For any other name it first asks the KMS for that very name; a
    failure is returned as it is, with a nil signer and no further call;
    otherwise the signer derived from the handle is returned. *)
Theorem signer_source (name : string) tr f :
  runs (NewCryptoSigner name) tr f ->
  (name = MemoryScheme ->
   exists sv err,
     tr = [Ev (signature_NewECDSASignerVerifier "P-256" crypto_SHA256) (sv, err)]
     /\ f = Returned (sv, err))
  /\ (name <> MemoryScheme ->
      (exists err,
          tr = [Ev (kms_Get name crypto_SHA256) (inr err)]
          /\ f = Returned (None, Some err))
      \/ (exists handle s err,
            tr = [Ev (kms_Get name crypto_SHA256) (inl handle);
                  Ev (CryptoSigner handle) (s, err)]
            /\ f = Returned (s, err))).
Proof.
  intros Hrun. unfold NewCryptoSigner in Hrun.
  case_bool_decide as Hname.
  - split; [|done]. intros _.
    runs_cases Hrun. subst. eauto.
  - split; [done|]. intros _.
    runs_cases Hrun; subst.
    + right. eauto 6.
    + left. eauto.
Qed.

Lemma signer_source_witness :
  exists sv err,
    (run (fun X (e : signerE X) =>
            match e in signerE X return X with
            | signature_NewECDSASignerVerifier _ _ => (Some "memory", None)
            | kms_Get _ _ => inr (errorString "no provider")
            | CryptoSigner _ => (None, None)
            end) (NewCryptoSigner "memory")).1
    = [Ev (signature_NewECDSASignerVerifier "P-256" crypto_SHA256) (sv, err)].
Proof.
  destruct (signer_source "memory" _ _
              (run_runs (fun X (e : signerE X) =>
                           match e in signerE X return X with
                           | signature_NewECDSASignerVerifier _ _ => (Some "memory", None)
                           | kms_Get _ _ => inr (errorString "no provider")
                           | CryptoSigner _ => (None, None)
                           end) (NewCryptoSigner "memory")))
    as [Hmem _].
  destruct (Hmem eq_refl) as (sv & err & Htr & _).
  exists sv, err. exact Htr.
Defined.

(** ** The verify command: reading the flags *)

Lemma strings_Split_nonempty (s : string) (sep : ascii) :
  app.strings_Split s sep <> [].
Proof.
  destruct s as [|c s]; simpl; [done|].
  case_bool_decide; [done|]. by destruct (app.strings_Split s sep).
Qed.

Section verify_command.
Variable filepath_Clean : string -> string.
Variable strconv_Atoi : string -> Z + error.
Variable big_SetString : string -> Z -> option Z.
Variable cryptoutils_UnmarshalCertificatesFromPEM
  : bytes -> list x509.Certificate + error.
Variable viper : gmap string string.

Let flag (key : string) : string := certificate_maker.viper_GetString viper key.

Lemma getOID_range_all {E} (els : list string) (ns : list Z) (i : nat)
    (oid : list Z) :
  Forall2 (fun el n => strconv_Atoi el = inl n) els ns ->
  (i + length els <= length oid)%nat ->
  app.getOID_range strconv_Atoi (E:=E) i els oid =
  Ret (Some (take i oid ++ ns ++ drop (i + length els) oid), None).
Proof.
  intros Hall. revert i oid.
  induction Hall as [|el n els ns Hel _ IH]; intros i oid Hlen; simpl in *.
  - by rewrite Nat.add_0_r, take_drop.
  - rewrite Hel. rewrite bool_decide_eq_true_2 by lia.
    rewrite IH by (rewrite length_insert; lia).
    rewrite (take_S_r _ i n) by (apply list_lookup_insert_eq; lia).
    rewrite take_insert_ge by lia.
    rewrite drop_insert_lt by lia.
    rewrite <- app_assoc. simpl.
    by replace (S (i + length els)) with (i + S (length els))%nat by lia.
Qed.

Lemma getOID_range_first_failure {E} (pre : list string) (ns : list Z)
    (el : string) (rest : list string) (err : error) (i : nat) (oid : list Z) :
  Forall2 (fun el n => strconv_Atoi el = inl n) pre ns ->
  strconv_Atoi el = inr err ->
  (i + length pre < length oid)%nat ->
  app.getOID_range strconv_Atoi (E:=E) i (pre ++ el :: rest) oid =
  Ret (None, Some err).
Proof.
  intros Hpre Hel. revert i oid.
  induction Hpre as [|p n pre ns Hp _ IH]; intros i oid Hlen; simpl in *.
  - by rewrite Hel.
  - rewrite Hp. rewrite bool_decide_eq_true_2 by lia.
    apply IH. rewrite length_insert. lia.
Qed.

(** [getOID] on the "oid" flag.  An empty flag gives no expectation.  A flag
    all of whose dot-separated parts are accepted by [strconv.Atoi] gives the
    non-nil identifier of those integers, one per part and in order.  When a
    part is refused, the result is nil with the error of the first refused
    part.  No other case exists and the index into the result never leaves
    its bounds. *)
Theorem getOID_parses_every_part {E : Type -> Type} :
  (flag "oid" = "" -> app.getOID strconv_Atoi viper (E:=E) = Ret (None, None))
  /\ (flag "oid" <> "" ->
      (forall ints,
          Forall2 (fun el n => strconv_Atoi el = inl n)
                  (app.strings_Split (flag "oid") ".") ints ->
          app.getOID strconv_Atoi viper (E:=E) = Ret (Some ints, None)
          /\ ints <> [])
      /\ (forall pre ns el rest err,
            app.strings_Split (flag "oid") "." = pre ++ el :: rest ->
            Forall2 (fun el n => strconv_Atoi el = inl n) pre ns ->
            strconv_Atoi el = inr err ->
            app.getOID strconv_Atoi viper (E:=E) = Ret (None, Some err))).
Proof.
  unfold app.getOID, app.viper_GetString. fold (flag "oid"). split.
  - intros ->. reflexivity.
  - intros Hflag. rewrite bool_decide_eq_false_2 by done. split.
    + intros ints Hall. split.
      * rewrite (getOID_range_all _ ints) by (rewrite ?length_replicate; done || lia).
        simpl. rewrite drop_ge by (rewrite length_replicate; lia).
        by rewrite app_nil_r.
      * intros ->. apply Forall2_nil_inv_r in Hall.
        by apply (strings_Split_nonempty (flag "oid") ".").
    + intros pre ns el rest err Hsplit Hpre Hel. rewrite Hsplit.
      apply (getOID_range_first_failure pre ns); [done|done|].
      rewrite length_replicate, length_app. simpl. lia.
Qed.

End verify_command.

Lemma getOID_parses_every_part_witness :
  app.getOID fixture_app.Atoi fixture_app.viper (E:=app.appE)
  = Ret (Some [1; 2; 3], None).
Proof.
  destruct (getOID_parses_every_part fixture_app.Atoi fixture_app.viper
              (E:=app.appE)) as [_ Hset].
  destruct Hset as [Hall _]; [vm_compute; discriminate|].
  apply (Hall [1; 2; 3]).
  replace (app.strings_Split _ _) with ["1"; "2"; "3"] by (vm_compute; reflexivity).
  do 3 (constructor; [reflexivity|]). constructor.
Defined.

Section verify_command_files.
Variable filepath_Clean : string -> string.
Variable strconv_Atoi : string -> Z + error.
Variable big_SetString : string -> Z -> option Z.
Variable cryptoutils_UnmarshalCertificatesFromPEM
  : bytes -> list x509.Certificate + error.
Variable viper : gmap string string.

Let flag (key : string) : string := certificate_maker.viper_GetString viper key.

Lemma snoc_take_last {A} (l : list A) :
  l <> [] ->
  exists x, l !! (length l - 1)%nat = Some x /\ l = take (length l - 1) l ++ [x].
Proof.
  intros Hne. destruct (exists_last Hne) as (l' & x & ->).
  exists x. rewrite length_app. simpl.
  replace (length l' + 1 - 1)%nat with (length l') by lia.
  rewrite take_app_length. split; [|done].
  by apply list_lookup_middle.
Qed.

(** [getRootAndIntermediateCerts] on the "certificate-chain" flag.  An empty
    flag reads no file and gives nil roots and nil intermediates.  Otherwise
    the one call is reading the cleaned path; success needs at least one
    certificate in the file and splits them without loss or reordering: the
    last certificate is the only root, all before it are the intermediates,
    which are non-nil even when there are none.  Every failure gives nil for
    both. *)
Theorem chain_file_split tr f :
  runs (app.getRootAndIntermediateCerts filepath_Clean
          cryptoutils_UnmarshalCertificatesFromPEM viper) tr f ->
  (flag "certificate-chain" = "" ->
   tr = [] /\ f = Returned (None, None, None))
  /\ (flag "certificate-chain" <> "" ->
      exists answer,
        tr = [Ev (app.os_ReadFile (filepath_Clean (flag "certificate-chain"))) answer]
        /\ ((exists pemBytes intermediates root,
               answer = inl pemBytes
               /\ cryptoutils_UnmarshalCertificatesFromPEM pemBytes
                  = inl (intermediates ++ [root])
               /\ f = Returned (Some [root], Some intermediates, None))
            \/ (exists err,
                  f = Returned (None, None, Some err)
                  /\ forall pemBytes certs,
                       answer = inl pemBytes ->
                       cryptoutils_UnmarshalCertificatesFromPEM pemBytes = inl certs ->
                       certs = []))).
Proof.
  unfold app.getRootAndIntermediateCerts, app.viper_GetString.
  fold (flag "certificate-chain"). intros Hrun. split.
  - intros Hflag. rewrite Hflag in Hrun. by destruct Hrun as [-> ->].
  - intros Hflag. rewrite bool_decide_eq_false_2 in Hrun by done.
    unfold mbind, prog_bind, call in Hrun. cbn [runs bind] in Hrun.
    destruct Hrun as (answer & tr' & -> & Hrun). exists answer.
    destruct answer as [pemBytes|err]; cbn [runs bind] in Hrun.
    + destruct (cryptoutils_UnmarshalCertificatesFromPEM pemBytes)
        as [certs|err] eqn:Hcerts.
      * case_bool_decide as Hlen.
        -- destruct Hrun as [-> ->]. split; [done|]. right. eexists. split; [done|].
           intros pem' certs' [= <-] Hc. rewrite Hcerts in Hc.
           injection Hc as <-. by destruct certs.
        -- destruct (snoc_take_last certs) as (root & Hroot & Hsplit).
           { by destruct certs. }
           unfold index in Hrun. rewrite Hroot in Hrun. cbn [runs bind] in Hrun.
           destruct Hrun as [-> ->]. split; [done|]. left.
           exists pemBytes, (take (length certs - 1) certs), root.
           by rewrite <- Hsplit.
      * destruct Hrun as [-> ->]. split; [done|]. right. eexists. split; [done|].
        intros ? ? [= <-] Hc. congruence.
    + destruct Hrun as [-> ->]. split; [done|]. right. eexists. split; [done|].
      intros ? ? [=].
Qed.

(** [parseTSACertificate] reads the cleaned path once and succeeds exactly
    when the file holds one certificate, which it returns; a file with none
    or with several, an unreadable file and an unparsable one all give a nil
    certificate and an error. *)
Theorem leaf_file_holds_one_certificate (certPath : string) tr f :
  runs (app.parseTSACertificate filepath_Clean
          cryptoutils_UnmarshalCertificatesFromPEM certPath) tr f ->
  exists answer,
    tr = [Ev (app.os_ReadFile (filepath_Clean certPath)) answer]
    /\ ((exists pemBytes cert,
           answer = inl pemBytes
           /\ cryptoutils_UnmarshalCertificatesFromPEM pemBytes = inl [cert]
           /\ f = Returned (Some cert, None))
        \/ (exists err,
              f = Returned (None, Some err)
              /\ forall pemBytes cert,
                   answer = inl pemBytes ->
                   cryptoutils_UnmarshalCertificatesFromPEM pemBytes <> inl [cert])).
Proof.
  unfold app.parseTSACertificate, mbind, prog_bind, call. cbn [runs bind].
  intros (answer & tr' & -> & Hrun). exists answer.
  destruct answer as [pemBytes|err]; cbn [runs bind] in Hrun.
  - destruct (cryptoutils_UnmarshalCertificatesFromPEM pemBytes)
      as [certs|err] eqn:Hcerts.
    + case_bool_decide as Hlen.
      * destruct Hrun as [-> ->]. split; [done|]. right. eexists. split; [done|].
        intros pem' cert [= <-] Hc. rewrite Hcerts in Hc.
        injection Hc as ->. by apply Hlen.
      * destruct certs as [|cert [|cert' certs]]; simpl in Hlen; try lia.
        destruct Hrun as [-> ->]. split; [done|]. left. by exists pemBytes, cert.
    + destruct Hrun as [-> ->]. split; [done|]. right. eexists. split; [done|].
      intros ? cert [= <-] Hc. congruence.
  - destruct Hrun as [-> ->]. split; [done|]. right. eexists. split; [done|].
    intros ? cert [=].
Qed.

End verify_command_files.

Lemma chain_file_split_witness :
  exists intermediates root,
    (run fixture_app.env
       (app.getRootAndIntermediateCerts fixture_app.Clean fixture_app.Unmarshal
          fixture_app.viper)).2
    = Returned (Some [root], Some intermediates, None)
    /\ length intermediates = 2%nat.
Proof.
  destruct (chain_file_split fixture_app.Clean fixture_app.Unmarshal
              fixture_app.viper _ _ (run_runs fixture_app.env _)) as [_ Hset].
  destruct Hset as (answer & _ & [(pem & ints & root & _ & Hcerts & Hf)|(err & Hf & _)]).
  - vm_compute. discriminate.
  - exists ints, root. split; [exact Hf|].
    vm_compute in Hf. injection Hf as _ <-. reflexivity.
  - vm_compute in Hf. discriminate Hf.
Defined.

Lemma leaf_file_holds_one_certificate_witness :
  exists err,
    (run fixture_app.env
       (app.parseTSACertificate fixture_app.Clean fixture_app.Unmarshal
          "chain.pem")).2
    = Returned (None, Some err).
Proof.
  destruct (leaf_file_holds_one_certificate fixture_app.Clean fixture_app.Unmarshal
              "chain.pem" _ _ (run_runs fixture_app.env _))
    as (answer & _ & [(pem & cert & _ & _ & Hf)|(err & Hf & _)]).
  - vm_compute in Hf. discriminate Hf.
  - exists err. exact Hf.
Defined.

(** ** The verify command: options and run *)

Section verify_command_run.
Variable filepath_Clean : string -> string.
Variable strconv_Atoi : string -> Z + error.
Variable big_SetString : string -> Z -> option Z.
Variable cryptoutils_UnmarshalCertificatesFromPEM
  : bytes -> list x509.Certificate + error.
Variable viper : gmap string string.

Let flag (key : string) : string := certificate_maker.viper_GetString viper key.

Lemma parse_all_or_first_failure (els : list string) :
  (exists ns, Forall2 (fun el n => strconv_Atoi el = inl n) els ns)
  \/ (exists pre ns el rest err,
        els = pre ++ el :: rest
        /\ Forall2 (fun el n => strconv_Atoi el = inl n) pre ns
        /\ strconv_Atoi el = inr err).
Proof.
  induction els as [|el els IH].
  - left. exists []. constructor.
  - destruct (strconv_Atoi el) as [n|err] eqn:Hel.
    + destruct IH as [[ns Hns]|(pre & ns & el' & rest & err & -> & Hpre & Hel')].
      * left. exists (n :: ns). by constructor.
      * right. exists (el :: pre), (n :: ns), el', rest, err.
        split; [done|]. split; [by constructor|done].
    + right. exists [], [], el, els, err. split; [done|]. split; [constructor|done].
Qed.

Lemma getOID_shape {E} :
  (flag "oid" = "" /\ app.getOID strconv_Atoi viper (E:=E) = Ret (None, None))
  \/ (flag "oid" <> ""
      /\ ((exists ints, app.getOID strconv_Atoi viper (E:=E) = Ret (Some ints, None))
          \/ exists err, app.getOID strconv_Atoi viper (E:=E) = Ret (None, Some err))).
Proof.
  unfold app.getOID, app.viper_GetString. fold (flag "oid").
  case_bool_decide as Hflag; [by left|]. right. split; [done|].
  destruct (parse_all_or_first_failure (app.strings_Split (flag "oid") "."))
    as [[ns Hns]|(pre & ns & el & rest & err & Hsplit & Hpre & Hel)].
  - left. eexists.
    apply (getOID_range_all strconv_Atoi _ ns); [done|].
    rewrite length_replicate. simpl. lia.
  - right. exists err. rewrite Hsplit.
    apply (getOID_range_first_failure strconv_Atoi pre ns); [done|done|].
    rewrite length_replicate, length_app. simpl. lia.
Qed.

(** Case analysis on what the first step of a program, under any number of
    binds, is waiting for. *)
Ltac head_case p :=
  lazymatch p with
  | bind ?q _ => head_case q
  | match ?x with _ => _ end => destruct x eqn:?
  | if ?b then _ else _ => destruct b eqn:?
  end.

Ltac runs_deep H :=
  unfold mbind, prog_bind, call in H;
  repeat (cbn [runs bind] in H;
    match type of H with
    | _ /\ _ => destruct H as [-> ->]
    | exists _, _ =>
        let x := fresh "answer" in
        let tr := fresh "tr" in
        destruct H as (x & tr & -> & H)
    | runs ?p _ _ => head_case p
    end).

(** The runs of [newVerifyOpts], with the reading of the "oid" flag done. *)
Ltac newVerifyOpts_cases Hrun :=
  unfold app.newVerifyOpts in Hrun;
  destruct (getOID_shape (E:=app.appE))
    as [[Hoid Hget]|[Hoid [[ints Hget]|[oiderr Hget]]]];
  rewrite Hget in Hrun;
  unfold app.parseTSACertificate, app.getRootAndIntermediateCerts, app.getNonce,
    app.viper_GetString, index in Hrun;
  runs_deep Hrun;
  repeat match goal with
  | H : bool_decide _ = true |- _ => apply bool_decide_eq_true in H
  | H : bool_decide _ = false |- _ => apply bool_decide_eq_false in H
  | H : _ !! _ = None |- _ => apply lookup_ge_None in H
  | H : ~ (_ <> _) |- _ => apply dec_stable in H
  end;
  try lia.

Lemma newVerifyOpts_returns tr f :
  runs (app.newVerifyOpts filepath_Clean strconv_Atoi big_SetString
          cryptoutils_UnmarshalCertificatesFromPEM viper) tr f ->
  Forall (fun ev => verify_call ev = None) tr
  /\ exists opts err, f = Returned (opts, err).
Proof.
  intros Hrun. newVerifyOpts_cases Hrun.
  all: split; [repeat constructor|eauto].
Qed.

(** [newVerifyOpts] never panics and is all or nothing.  On an error it
    returns the zero options.  On success an expectation is absent exactly
    when its flag is empty: the OID for "oid", the leaf certificate for
    "certificate", roots and intermediates for "certificate-chain", the nonce
    for "nonce"; the common name is the "common-name" flag.  The only calls
    are reads of the certificate file and of the chain file, in this order,
    and a refused "oid" flag is reported before any file is read. *)
Theorem options_all_or_nothing tr f :
  runs (app.newVerifyOpts filepath_Clean strconv_Atoi big_SetString
          cryptoutils_UnmarshalCertificatesFromPEM viper) tr f ->
  exists opts err,
    f = Returned (opts, err)
    /\ match err with
       | Some _ => opts = app.zero
       | None =>
           (app.OID opts = None <-> flag "oid" = "")
           /\ (app.TSACertificate opts = None <-> flag "certificate" = "")
           /\ (app.Roots opts = None <-> flag "certificate-chain" = "")
           /\ (app.Intermediates opts = None <-> flag "certificate-chain" = "")
           /\ (app.Nonce opts = None <-> flag "nonce" = "")
           /\ app.CommonName opts = flag "common-name"
       end
    /\ (exists certificate chain,
          tr = certificate ++ chain
          /\ (certificate = [] \/ exists answer,
                certificate =
                [Ev (app.os_ReadFile (filepath_Clean (flag "certificate"))) answer])
          /\ (chain = [] \/ exists answer,
                chain =
                [Ev (app.os_ReadFile (filepath_Clean (flag "certificate-chain")))
                    answer]))
    /\ ((exists oiderr, app.getOID strconv_Atoi viper (E:=app.appE)
                        = Ret (None, Some oiderr)) -> tr = []).
Proof.
  intros Hrun. newVerifyOpts_cases Hrun.
  all: eexists _, _; split; [reflexivity|].
  all: split; [try reflexivity; simpl; unfold flag in *;
               repeat split; intros; try done; try congruence|].
  all: split;
    [ first [ by exists [], []; split; [reflexivity|]; split; left
            | by eexists [_], []; split; [reflexivity|];
                 split; [right; eexists; reflexivity|left]
            | by eexists [], [_]; split; [reflexivity|];
                 split; [left|right; eexists; reflexivity]
            | by eexists [_], [_]; split; [reflexivity|];
                 split; right; eexists; reflexivity ]
    | intros [oiderr' Hget']; rewrite Hget in Hget'; by simplify_eq ].
Qed.

(** Success of the verify command means verification succeeded.  A call of
    [verification.VerifyTimestampResponse] that returns is the last call of
    [runVerify]; it comes after the timestamp file was read and the artifact
    opened, both at their cleaned paths and as the first two calls, and is
    given exactly those bytes and that reader; its error, nil or not, is what
    [runVerify] returns, with a pointer to the output.  When [runVerify]
    returns a nil error, such a call was made and returned nil. *)
Theorem verify_command_reports_verification tr f :
  runs (app.runVerify filepath_Clean strconv_Atoi big_SetString
          cryptoutils_UnmarshalCertificatesFromPEM viper) tr f ->
  (forall tsrBytes artifact opts result,
      In (Some (tsrBytes, artifact, opts, result)) (map verify_call tr) ->
      exists reads,
        tr = Ev (app.os_ReadFile (filepath_Clean (flag "timestamp"))) (inl tsrBytes)
             :: Ev (app.os_Open (filepath_Clean (flag "artifact"))) (inl artifact)
             :: reads
             ++ [Ev (app.verification_VerifyTimestampResponse tsrBytes artifact opts)
                    result]
        /\ Forall (fun ev => verify_call ev = None) reads
        /\ f = Returned (app.pointer_output
                           {| app.TimestampPath := flag "timestamp" |}, result))
  /\ (forall out, f = Returned (out, None) ->
      exists tsrBytes artifact opts,
        last tr = Some (Ev (app.verification_VerifyTimestampResponse
                              tsrBytes artifact opts) None)
        /\ out = app.pointer_output {| app.TimestampPath := flag "timestamp" |}).
Proof.
  unfold app.runVerify, app.viper_GetString, mbind, prog_bind, call.
  fold (flag "timestamp") (flag "artifact").
  cbn [runs bind]. intros (answer1 & tr1 & -> & Hrun).
  destruct answer1 as [tsrBytes|err1]; cbn [runs bind] in Hrun.
  2: { destruct Hrun as [-> ->]. split.
       - intros ? ? ? ? Hin. simpl in Hin. by destruct_or?.
       - intros out [=]. }
  destruct Hrun as (answer2 & tr2 & -> & Hrun).
  destruct answer2 as [artifact|err2]; cbn [runs bind] in Hrun.
  2: { destruct Hrun as [-> ->]. split.
       - intros ? ? ? ? Hin. simpl in Hin. by destruct_or?.
       - intros out [=]. }
  apply runs_bind in Hrun
    as [(reads & [opts err] & tr3 & -> & Hopts & Hrun)|(msg & Hopts & ->)];
    apply newVerifyOpts_returns in Hopts as (Hreads & opts' & err' & Hret);
    simplify_eq.
  assert (forall x, ~ In (Some x) (map verify_call reads)) as Hnone.
  { intros x. by apply not_In_map_None. }
  destruct err' as [err|]; cbn [runs bind] in Hrun.
  { destruct Hrun as [-> ->]. rewrite app_nil_r. split.
    - intros ? ? ? ? Hin. simpl in Hin. destruct_or?; try done.
      by destruct (Hnone _ Hin).
    - intros out [=]. }
  destruct Hrun as (result & tr4 & -> & [-> ->]).
  split.
  - intros b a o r Hin. simpl in Hin. destruct_or?; try done.
    rewrite map_app, in_app_iff in Hin. simpl in Hin. destruct_or?; try done.
    + by destruct (Hnone _ Hin).
    + simplify_eq. by exists reads.
  - intros out [= <- <-]. exists tsrBytes, artifact, opts'.
    split; [|done].
    by rewrite !last_cons, last_snoc.
Qed.

End verify_command_run.

Lemma options_all_or_nothing_witness :
  exists opts,
    (run fixture_app.env
       (app.newVerifyOpts fixture_app.Clean fixture_app.Atoi fixture_app.SetString
          fixture_app.Unmarshal fixture_app.viper)).2
    = Returned (opts, None)
    /\ app.TSACertificate opts = None.
Proof.
  destruct (options_all_or_nothing fixture_app.Clean fixture_app.Atoi
              fixture_app.SetString fixture_app.Unmarshal fixture_app.viper _ _
              (run_runs fixture_app.env _))
    as (opts & err & Hf & Hopts & _).
  assert (err = None) as ->.
  { vm_compute in Hf. by injection Hf as _ <-. }
  exists opts. split; [exact Hf|].
  destruct Hopts as (_ & Hleaf & _). apply Hleaf. vm_compute. reflexivity.
Defined.

Lemma verify_command_reports_verification_witness :
  exists tsrBytes artifact opts,
    last (run fixture_app.env
            (app.runVerify fixture_app.Clean fixture_app.Atoi
               fixture_app.SetString fixture_app.Unmarshal fixture_app.viper)).1
    = Some (Ev (app.verification_VerifyTimestampResponse tsrBytes artifact opts)
               None).
Proof.
  destruct (verify_command_reports_verification fixture_app.Clean fixture_app.Atoi
              fixture_app.SetString fixture_app.Unmarshal fixture_app.viper _ _
              (run_runs fixture_app.env _))
    as (_ & Hok).
  destruct (Hok (app.pointer_output {| app.TimestampPath := "response.tsr" |}))
    as (tsrBytes & artifact & opts & Hlast & _).
  - vm_compute. reflexivity.
  - exists tsrBytes, artifact, opts. exact Hlast.
Defined.
